(** * ffau: decode / resample pipeline

    A shallow embedding of the Go package [ffau] (audio.go, samplefmt.go,
    resample.go, read.go).  The package drives three C libraries through cgo
    (libavformat, libavcodec, libswresample).  Those libraries are outside
    the package; they appear here as the fields of the class [Libav], over an
    abstract [World] that stands for their hidden state and for the C heap.
    Every call into them is recorded in a log, so that statements such as
    "the converter is not invoked" can be written down. *)

From Stdlib Require Import ZArith List String Bool Lia.
Import ListNotations.
Local Open Scope Z_scope.

(** ** Machine integers

    cgo's [C.int] is a 32-bit signed integer, Go's [int] and [uintptr] are 64
    bits wide on the platforms cgo and libav support.  Values are kept in [Z]
    and wrapped where the code computes. *)

Definition int32 (z : Z) : Z := (z + 2 ^ 31) mod 2 ^ 32 - 2 ^ 31.
Definition int64 (z : Z) : Z := (z + 2 ^ 63) mod 2 ^ 64 - 2 ^ 63.
Definition uint64 (z : Z) : Z := z mod 2 ^ 64.

Definition in_int32 (z : Z) : Prop := - 2 ^ 31 <= z < 2 ^ 31.
Definition in_int64 (z : Z) : Prop := - 2 ^ 63 <= z < 2 ^ 63.

(** [unsafe.Sizeof(&e)] for a pointer, see [init] in resample.go. *)
Definition sizeOfPtr : Z := 8.

(** ** Errors

    A Go [error] value is [nil], the sentinel [io.EOF], or a value made by
    [errors.New]; the latter never compares equal to [io.EOF]. *)

Inductive error : Type :=
| io_EOF
| errors_New (msg : string).

(** [AVERROR_EOF] is [FFERRTAG('E','O','F',' ')] in libavutil/error.h. *)
Definition AVERROR_EOF : Z := - 541478725.

(** ** Sample formats (samplefmt.go)

    [type SampleFmt int8]; the constants take the values of
    [enum AVSampleFormat] in libavutil/samplefmt.h. *)

Definition SampleFmt := Z.

Definition NoSamples     : SampleFmt := -1.
Definition PackedU8s     : SampleFmt := 0.
Definition PackedS16s    : SampleFmt := 1.
Definition PackedS32s    : SampleFmt := 2.
Definition PackedFloats  : SampleFmt := 3.
Definition PackedDoubles : SampleFmt := 4.
Definition PlanarU8s     : SampleFmt := 5.
Definition PlanarS16s    : SampleFmt := 6.
Definition PlanarS32s    : SampleFmt := 7.
Definition PlanarFloats  : SampleFmt := 8.
Definition PlanarDoubles : SampleFmt := 9.

Definition packed_formats : list SampleFmt :=
  [PackedU8s; PackedS16s; PackedS32s; PackedFloats; PackedDoubles].
Definition planar_formats : list SampleFmt :=
  [PlanarU8s; PlanarS16s; PlanarS32s; PlanarFloats; PlanarDoubles].

(** Membership test used for the [case] lists of a Go [switch]. *)
Definition case_of (x : Z) (l : list Z) : bool := existsb (Z.eqb x) l.

(** ** Audio formats (resample.go) *)

Definition ChannelLayout := Z.

Record AudioFormat : Type := mkAudioFormat {
  Rate    : Z;              (* Go int: frames per second *)
  Storage : SampleFmt;      (* int8 *)
  Layout  : ChannelLayout   (* C.int64_t *)
}.

Definition Equal (this that : AudioFormat) : bool :=
  (Rate this =? Rate that) && (Storage this =? Storage that)
  && (Layout this =? Layout that).

(** ** C data the package reads and writes *)

(** The two fields of [C.AVPacket] the package touches. A pointer is an
    address, [0] is [nil]. *)
Record AVPacket : Type := mkPacket {
  pkt_data : Z;
  pkt_size : Z
}.

(** The two fields of [C.AVFrame] the package reads. *)
Record AVFrame : Type := mkFrame {
  extended_data : Z;
  nb_samples    : Z
}.

(** ** The C libraries *)

Class Libav : Type := {
  World : Type;
  (* libavutil: pure lookups *)
  av_get_channel_layout_nb_channels : Z -> Z;
  av_get_bytes_per_sample : Z -> Z;
  av_strerror : Z -> string;
  (* libavformat: next packet of the stream; result code and packet *)
  av_read_frame : World -> Z -> AVPacket -> Z * AVPacket * World;
  av_free_packet : World -> AVPacket -> AVPacket * World;
  (* libavcodec: consumed byte count (negative: error), got_frame flag and
     the contents of the frame object after the call *)
  avcodec_decode_audio4 :
    World -> Z -> AVFrame -> AVPacket -> Z * Z * AVFrame * World;
  (* libswresample: arguments are (layout, storage, rate) of the target and
     of the source; the result is the context pointer *)
  swr_alloc_set_opts : World -> Z -> Z -> Z -> Z -> Z -> Z -> Z * World;
  swr_init : World -> Z -> Z * World;
  (* ctx, out, out_count, in, in_count; the result is the output count *)
  swr_convert : World -> Z -> Z -> Z -> Z -> Z -> Z * World;
  (* libc and the C heap *)
  malloc : World -> Z -> Z * World;
  free : World -> Z -> World;
  load_ptr : World -> Z -> Z;
  store_ptr : World -> Z -> Z -> World
}.

(** Go's float64 arithmetic, as far as [Resample] and [read_raw] use it:
    [f64_div a b] is [float64(a) / float64(b)] and [f64_ceil_mul nf r] is
    [C.int(math.Ceil(float64(nf) * r))]. *)
Class Float64 : Type := {
  float64 : Type;
  f64_div : Z -> Z -> float64;
  f64_ceil_mul : Z -> float64 -> Z
}.

(** Calls into the C libraries, in the order they are made. *)
Inductive Call : Type :=
| Call_av_read_frame
| Call_av_free_packet
| Call_avcodec_decode_audio4
| Call_swr_alloc_set_opts
| Call_swr_init
| Call_swr_convert (out_count in_count : Z)
| Call_malloc (size : Z)
| Call_free (p : Z).

Definition is_swr_convert (c : Call) : bool :=
  match c with Call_swr_convert _ _ => true | _ => false end.
Definition is_av_read_frame (c : Call) : bool :=
  match c with Call_av_read_frame => true | _ => false end.

Section System.
Context {L : Libav}.

Record Sys : Type := mkSys {
  world : World;
  log   : list Call
}.

Definition logged (c : Call) (w : World) (s : Sys) : Sys :=
  {| world := w; log := log s ++ [c] |}.

(** The cgo calls: the result of a C function declared [int] is a [C.int],
    a pointer is a 64-bit address. *)

Definition C_av_read_frame (ctx : Z) (pkt : AVPacket) (s : Sys)
  : Z * AVPacket * Sys :=
  let '(r, pkt', w) := av_read_frame (world s) ctx pkt in
  (int32 r, pkt', logged Call_av_read_frame w s).

Definition C_av_free_packet (pkt : AVPacket) (s : Sys) : AVPacket * Sys :=
  let '(pkt', w) := av_free_packet (world s) pkt in
  (pkt', logged Call_av_free_packet w s).

Definition C_avcodec_decode_audio4 (codec : Z) (frame : AVFrame)
    (pkt : AVPacket) (s : Sys) : Z * Z * AVFrame * Sys :=
  let '(n, gotFrame, frame', w) :=
    avcodec_decode_audio4 (world s) codec frame pkt in
  (int32 n, int32 gotFrame, frame', logged Call_avcodec_decode_audio4 w s).

Definition C_swr_alloc_set_opts (to_layout to_fmt to_rate
    from_layout from_fmt from_rate : Z) (s : Sys) : Z * Sys :=
  let '(p, w) := swr_alloc_set_opts (world s) to_layout to_fmt to_rate
                   from_layout from_fmt from_rate in
  (uint64 p, logged Call_swr_alloc_set_opts w s).

Definition C_swr_init (ctx : Z) (s : Sys) : Z * Sys :=
  let '(r, w) := swr_init (world s) ctx in
  (int32 r, logged Call_swr_init w s).

Definition C_swr_convert (ctx out out_count in_ in_count : Z) (s : Sys)
  : Z * Sys :=
  let '(r, w) := swr_convert (world s) ctx out out_count in_ in_count in
  (int32 r, logged (Call_swr_convert out_count in_count) w s).

Definition C_malloc (size : Z) (s : Sys) : Z * Sys :=
  let '(p, w) := malloc (world s) size in
  (uint64 p, logged (Call_malloc size) w s).

Definition C_free (p : Z) (s : Sys) : Sys :=
  logged (Call_free p) (free (world s) p) s.

(** *** AudioFormat methods (resample.go) *)

Definition NumChannels (format : AudioFormat) : Z :=
  int32 (av_get_channel_layout_nb_channels (uint64 (Layout format))).

Definition NumPlanes (format : AudioFormat) : Z :=
  if case_of (Storage format) packed_formats then 1
  else if case_of (Storage format) planar_formats then NumChannels format
  else 0.

(** *** avError (audio.go) *)

Definition avError (errnum : Z) : error :=
  if errnum =? AVERROR_EOF then io_EOF
  else errors_New (av_strerror errnum).

(** *** The SampleStream interface (audio.go)

    [read_raw] returns the plane table pointer, the number of frames per
    plane and an error.  A stream is a mutable object behind a pointer: the
    method returns the object's new state and the new state of the C side. *)

Record RawResult : Type := mkRaw {
  planes : Z;
  frames : Z;
  err    : option error
}.

Class SampleStream (S : Type) : Type := {
  Format : S -> AudioFormat;
  read_raw : S -> Sys -> RawResult * S * Sys
}.

(** [k] successive [read_raw] calls on one instance; the results in call
    order. *)
Fixpoint read_raw_n {S : Type} `{SampleStream S} (k : nat) (st : S) (s : Sys)
  : list RawResult * S * Sys :=
  match k with
  | O => ([], st, s)
  | Datatypes.S k' =>
      let '(r, st1, s1) := read_raw st s in
      let '(rs, st2, s2) := read_raw_n k' st1 s1 in
      (r :: rs, st2, s2)
  end.

(** How [read_raw] of the resample stage reports a converter output count
    [nfout] written to the plane table [out]. *)
Definition reports_output (r : RawResult) (out nfout : Z) : Prop :=
  (err r = Some io_EOF <-> nfout = 0) /\
  (nfout = 0 -> r = mkRaw 0 0 (Some io_EOF)) /\
  (nfout <> 0 -> r = mkRaw out nfout None).




End System.

(** ** The decoder stage (audio.go) *)

Module AudioStream.
Section Methods.
Context {L : Libav}.

Record t : Type := mk {
  ctx       : Z;            (* ctx.ctx, the AVFormatContext *)
  idx       : Z;
  stream    : Z;            (* stream.codec is passed to the decoder *)
  fmt       : AudioFormat;
  orig_data : Z;            (* orig.data *)
  orig_size : Z;            (* orig.size *)
  pkt       : AVPacket;
  frame     : AVFrame;      (* the object [frame] points to *)
  framesEOF : bool
}.

Definition with_pkt (audio : t) (p : AVPacket) : t :=
  mk (ctx audio) (idx audio) (stream audio) (fmt audio) (orig_data audio)
     (orig_size audio) p (frame audio) (framesEOF audio).

Definition with_frame (audio : t) (f : AVFrame) : t :=
  mk (ctx audio) (idx audio) (stream audio) (fmt audio) (orig_data audio)
     (orig_size audio) (pkt audio) f (framesEOF audio).

Definition with_framesEOF (audio : t) (b : bool) : t :=
  mk (ctx audio) (idx audio) (stream audio) (fmt audio) (orig_data audio)
     (orig_size audio) (pkt audio) (frame audio) b.

Definition read_frame (audio : t) (s : Sys) : option error * t * Sys :=
  let '(audio, s) :=
    if negb (orig_data audio =? 0) then
      let '(p, s1) :=
        C_av_free_packet (mkPacket (orig_data audio) (orig_size audio)) s in
      (with_pkt audio p, s1)
    else (audio, s) in
  let '(r, p, s1) := C_av_read_frame (ctx audio) (pkt audio) s in
  let audio := with_pkt audio p in
  if r =? 0 then (None, audio, s1)
  else (Some (avError r), audio, s1).

Definition decode (audio : t) (s : Sys) : bool * option error * t * Sys :=
  let '(n, gotFrame, fr, s1) :=
    C_avcodec_decode_audio4 (stream audio) (frame audio) (pkt audio) s in
  let audio := with_frame audio fr in
  if n <? 0 then (false, Some (avError n), audio, s1)
  else
    let n := if n >? pkt_size (pkt audio) then pkt_size (pkt audio) else n in
    let p := mkPacket (uint64 (pkt_data (pkt audio) + uint64 n))
                      (int32 (pkt_size (pkt audio) - n)) in
    (negb (gotFrame =? 0), None, with_pkt audio p, s1).

(** The first statement of [read_raw]: pull a packet when the current one
    is used up and the demuxer has not reported the end.  The result is the
    error [read_raw] returns at once, if any. *)
Definition refill (audio : t) (s : Sys) : option error * t * Sys :=
  if (pkt_size (pkt audio) =? 0) && negb (framesEOF audio) then
    let '(e, audio, s1) := read_frame audio s in
    match e with
    | Some io_EOF => (None, with_framesEOF audio true, s1)
    | Some e' => (Some e', audio, s1)
    | None => (None, audio, s1)
    end
  else (None, audio, s).

Definition read_raw (audio : t) (s : Sys) : RawResult * t * Sys :=
  let '(e, audio, s1) := refill audio s in
  match e with
  | Some e' => (mkRaw 0 0 (Some e'), audio, s1)
  | None =>
      let '(gotFrame, e2, audio, s2) := decode audio s1 in
      match e2 with
      | Some e' => (mkRaw 0 0 (Some e'), audio, s2)
      | None =>
          if negb gotFrame then
            if framesEOF audio then (mkRaw 0 0 (Some io_EOF), audio, s2)
            else (mkRaw 0 0 None, audio, s2)
          else
            (mkRaw (extended_data (frame audio)) (nb_samples (frame audio))
                   None, audio, s2)
      end
  end.

#[global] Instance sample_stream : SampleStream t :=
  Build_SampleStream t fmt read_raw.

End Methods.
End AudioStream.

(** ** The resample stage (resample.go) *)

Module Resampler.
Section Methods.
Context {L : Libav} {F : Float64} {S : Type} {SS : SampleStream S}.

Record t : Type := mk {
  fmt       : AudioFormat;
  ctx       : Z;            (* *C.SwrContext *)
  source    : S;
  sourceEOF : bool;
  sratio    : float64;
  data      : Z;            (* table of plane pointers *)
  nplanes   : Z;
  nf        : Z;            (* samples allocated (per plane) *)
  buf       : Z
}.

Definition with_source (resamp : t) (src : S) : t :=
  mk (fmt resamp) (ctx resamp) src (sourceEOF resamp) (sratio resamp)
     (data resamp) (nplanes resamp) (nf resamp) (buf resamp).

Definition with_sourceEOF (resamp : t) (b : bool) : t :=
  mk (fmt resamp) (ctx resamp) (source resamp) b (sratio resamp)
     (data resamp) (nplanes resamp) (nf resamp) (buf resamp).

Definition with_nf (resamp : t) (n : Z) : t :=
  mk (fmt resamp) (ctx resamp) (source resamp) (sourceEOF resamp)
     (sratio resamp) (data resamp) (nplanes resamp) n (buf resamp).

Definition with_buf (resamp : t) (p : Z) : t :=
  mk (fmt resamp) (ctx resamp) (source resamp) (sourceEOF resamp)
     (sratio resamp) (data resamp) (nplanes resamp) (nf resamp) p.

Definition alloc_error : error :=
  errors_New "couldn't allocate resampler data block".

(** The loop of [checkBuf]: [k] iterations left, [i] the loop variable. *)
Fixpoint set_planes (k : nat) (i data_0 buf_0 bpc : Z) (w : World) : World :=
  match k with
  | O => w
  | Datatypes.S k' =>
      let data_i := uint64 (data_0 + uint64 (int64 (i * sizeOfPtr))) in
      let w' := store_ptr w data_i (uint64 (buf_0 + uint64 (int64 (i * bpc)))) in
      set_planes k' (i + 1) data_0 buf_0 bpc w'
  end.

Definition checkBuf (resamp : t) (nf' : Z) (s : Sys)
  : option error * t * Sys :=
  if nf resamp <? nf' then
    let bpc :=
      int32 (nf' * int32 (av_get_bytes_per_sample (Storage (fmt resamp)))) in
    let nbytes := int64 (bpc * NumChannels (fmt resamp)) in
    let '(resamp, s) :=
      if negb (buf resamp =? 0) then
        (with_buf resamp 0, C_free (buf resamp) s)
      else (resamp, s) in
    let '(p, s) := C_malloc (uint64 nbytes) s in
    let resamp := with_buf resamp p in
    if p =? 0 then (Some alloc_error, resamp, s)
    else
      let w := set_planes (Z.to_nat (nplanes resamp)) 0 (data resamp)
                 (buf resamp) bpc (world s) in
      (None, with_nf resamp nf', mkSys w (log s))
  else (None, resamp, s).

(** What the first part of [read_raw] (the [if !resamp.sourceEOF] block)
    leaves for the rest: either the method has returned, or the converter is
    to be invoked on the input planes [in_] holding [nf_in] frames. *)
Inductive Pulled : Type :=
| Return (r : RawResult)
| Convert (in_ nf_in : Z).

Definition pull (resamp : t) (s : Sys) : Pulled * t * Sys :=
  if negb (sourceEOF resamp) then
    let '(r, src, s1) := read_raw (source resamp) s in
    let resamp := with_source resamp src in
    let '(ret, resamp) :=
      match err r with
      | Some io_EOF => (None, with_sourceEOF resamp true)
      | Some e => (Some (mkRaw 0 0 (Some e)), resamp)
      | None =>
          if frames r =? 0 then (Some (mkRaw 0 0 None), resamp)
          else (None, resamp)
      end in
    match ret with
    | Some r' => (Return r', resamp, s1)
    | None =>
        let '(e, resamp, s2) :=
          checkBuf resamp (int32 (f64_ceil_mul (frames r) (sratio resamp)))
                   s1 in
        match e with
        | Some e' => (Return (mkRaw 0 0 (Some e')), resamp, s2)
        | None => (Convert (planes r) (frames r), resamp, s2)
        end
    end
  else (Convert 0 0, resamp, s).

(** The rest of [read_raw]: the converter call and the test of its result. *)
Definition convert (resamp : t) (in_ nf_in : Z) (s : Sys)
  : RawResult * t * Sys :=
  let '(nfout, s1) :=
    C_swr_convert (ctx resamp) (data resamp) (nf resamp) in_ nf_in s in
  if nfout =? 0 then (mkRaw 0 0 (Some io_EOF), resamp, s1)
  else (mkRaw (data resamp) nfout None, resamp, s1).

Definition read_raw (resamp : t) (s : Sys) : RawResult * t * Sys :=
  let '(p, resamp, s1) := pull resamp s in
  match p with
  | Return r => (r, resamp, s1)
  | Convert in_ nf_in => convert resamp in_ nf_in s1
  end.

#[global] Instance sample_stream : SampleStream t :=
  Build_SampleStream t fmt read_raw.

End Methods.
Arguments t {F} S.
End Resampler.

(** What [Resample] hands back as a [SampleStream]: the source itself, or a
    new Resampler around it. *)
Inductive Stream {F : Float64} (S : Type) : Type :=
| Direct (src : S)
| Resampled (resamp : Resampler.t S).
Arguments Direct {F S} src.
Arguments Resampled {F S} resamp.

Section Resample.
Context {L : Libav} {F : Float64} {S : Type} {SS : SampleStream S}.

Definition Resample (source : S) (to : AudioFormat) (s : Sys)
  : option (Stream S) * option error * Sys :=
  let from := Format source in
  if Equal from to then (Some (Direct source), None, s) (* no-op *)
  else
    let '(ctx, s) :=
      C_swr_alloc_set_opts (Layout to) (Storage to) (int32 (Rate to))
        (Layout from) (Storage from) (int32 (Rate from)) s in
    if ctx =? 0 then
      (None, Some (errors_New "couldn't allocate resampling context"), s)
    else
      let sratio := f64_div (Rate to) (Rate from) in
      let '(r, s) := C_swr_init ctx s in
      if r <? 0 then (None, Some (avError r), s)
      else
        let nplanes := NumPlanes from in
        let '(data, s) :=
          C_malloc (uint64 (int64 (NumPlanes from * sizeOfPtr))) s in
        if data =? 0 then
          (None,
           Some (errors_New "couldn't allocate resampler channel pointers"), s)
        else
          (Some (Resampled
                   (Resampler.mk to ctx source false sratio data nplanes 0 0)),
           None, s).

Definition Stream_Format (st : Stream S) : AudioFormat :=
  match st with
  | Direct src => Format src
  | Resampled r => Resampler.fmt r
  end.

Definition Stream_read_raw (st : Stream S) (s : Sys)
  : RawResult * Stream S * Sys :=
  match st with
  | Direct src =>
      let '(r, src', s') := read_raw src s in (r, Direct src', s')
  | Resampled resamp =>
      let '(r, resamp', s') := Resampler.read_raw resamp s in
      (r, Resampled resamp', s')
  end.

#[global] Instance Stream_sample_stream : SampleStream (Stream S) :=
  Build_SampleStream (Stream S) Stream_Format Stream_read_raw.

End Resample.

(** ** The typed reader (read.go) *)

(** A Go slice of int16: the empty literal [[]int16{}], or a slice header
    laid over memory the slice does not own. *)
Inductive slice : Type :=
| empty_slice
| SliceHeader (Data Len Cap : Z).

Definition len (sl : slice) : Z :=
  match sl with
  | empty_slice => 0
  | SliceHeader _ n _ => n
  end.

Module PackedS16Stream.
Section Methods.
Context {L : Libav} {S : Type} {SS : SampleStream S}.

Record t : Type := mk { source : S }.

Definition NewPackedS16Stream (src : S) : option t * option error :=
  if negb (Storage (Format src) =? PackedS16s) then
    (None, Some (errors_New "sample format mismatch"))
  else (Some (mk src), None).

Definition Read (stream : t) (s : Sys) : slice * option error * t * Sys :=
  let '(r, src, s1) := read_raw (source stream) s in
  let ns := int64 (NumChannels (Format src) * frames r) in
  match err r with
  | Some e => (empty_slice, Some e, mk src, s1)
  | None =>
      if planes r =? 0 then (empty_slice, None, mk src, s1)
      else
        (SliceHeader (load_ptr (world s1) (planes r)) ns ns, None, mk src, s1)
  end.

End Methods.
Arguments t S : clear implicits.
End PackedS16Stream.

(** ** The earlier draft of the resample stage (resamp.go)

    resamp.go holds an older [Resampler]: the plane pointers live in a Go
    slice, every plane has a buffer of its own, and [read_raw] has no early
    return for an empty pull.  Its last statements, the converter call and
    the test of the output count, are those of resample.go. *)

(** The Go allocator, for [make([]*C.uint8_t, n)]: the address of a fresh
    backing array of [n] pointers. *)
Class GoRuntime {L : Libav} : Type := {
  makeslice : World -> Z -> Z * World
}.

(** A Go call either returns or panics. *)
Inductive Outcome (A : Type) : Type :=
| Done (a : A)
| Panic.
Arguments Done {A} a.
Arguments Panic {A}.

Module Draft.
Section Methods.
Context {L : Libav} {G : GoRuntime} {F : Float64}
        {S : Type} {SS : SampleStream S}.

Record t : Type := mk {
  fmt       : AudioFormat;
  ctx       : Z;
  source    : S;
  sourceEOF : bool;
  sratio    : float64;
  data_ptr  : Z;            (* address of the backing array of [data] *)
  data      : list Z;       (* the elements of [data] *)
  nf        : Z
}.

Definition with_source (resamp : t) (src : S) : t :=
  mk (fmt resamp) (ctx resamp) src (sourceEOF resamp) (sratio resamp)
     (data_ptr resamp) (data resamp) (nf resamp).

Definition with_sourceEOF (resamp : t) (b : bool) : t :=
  mk (fmt resamp) (ctx resamp) (source resamp) b (sratio resamp)
     (data_ptr resamp) (data resamp) (nf resamp).

Definition with_data (resamp : t) (p : Z) (l : list Z) : t :=
  mk (fmt resamp) (ctx resamp) (source resamp) (sourceEOF resamp)
     (sratio resamp) p l (nf resamp).

Definition with_nf (resamp : t) (n : Z) : t :=
  mk (fmt resamp) (ctx resamp) (source resamp) (sourceEOF resamp)
     (sratio resamp) (data_ptr resamp) (data resamp) n.

Definition alloc_error : error :=
  errors_New "couldn't allocate resample output buffer".

(** [for i, ptr := range data { C.free(ptr); data[i] = nil }] *)
Fixpoint free_planes (l : list Z) (s : Sys) : list Z * Sys :=
  match l with
  | [] => ([], s)
  | ptr :: rest =>
      let '(rest', s') := free_planes rest (C_free ptr s) in
      (0 :: rest', s')
  end.

(** [for i := range data { data[i] = malloc(nbytes); if nil: return }];
    the flag tells whether every allocation succeeded. *)
Fixpoint alloc_planes (l : list Z) (nbytes : Z) (s : Sys)
  : bool * list Z * Sys :=
  match l with
  | [] => (true, [], s)
  | _ :: rest =>
      let '(p, s1) := C_malloc nbytes s in
      if p =? 0 then (false, 0 :: rest, s1)
      else
        let '(ok, rest', s2) := alloc_planes rest nbytes s1 in
        (ok, p :: rest', s2)
  end.

Definition checkBuf (resamp : t) (nf' : Z) (s : Sys)
  : Outcome (option error * t * Sys) :=
  if nf resamp <? nf' then
    let nbytes :=
      int32 (int32 (nf' * int32 (av_get_bytes_per_sample
                                   (Storage (fmt resamp))))
             * int32 (NumPlanes (Format (source resamp)))) in
    let made :=
      if nf resamp =? 0 then
        let n := NumPlanes (fmt resamp) in
        if n <? 0 then Panic
        else
          let '(p, w) := makeslice (world s) n in
          Done (with_data resamp (uint64 p) (repeat 0 (Z.to_nat n)),
                mkSys w (log s))
      else
        let '(l, s1) := free_planes (data resamp) s in
        Done (with_data resamp (data_ptr resamp) l, s1) in
    match made with
    | Panic => Panic
    | Done (resamp, s1) =>
        let '(ok, l, s2) :=
          alloc_planes (data resamp) (uint64 nbytes) s1 in
        let resamp := with_data resamp (data_ptr resamp) l in
        if ok then Done (None, with_nf resamp nf', s2)
        else Done (Some alloc_error, resamp, s2)
    end
  else Done (None, resamp, s).

Definition pull (resamp : t) (s : Sys)
  : Outcome (Resampler.Pulled * t * Sys) :=
  if negb (sourceEOF resamp) then
    let '(r, src, s1) := read_raw (source resamp) s in
    let resamp := with_source resamp src in
    let '(ret, resamp) :=
      match err r with
      | Some io_EOF => (None, with_sourceEOF resamp true)
      | Some e => (Some (mkRaw 0 0 (Some e)), resamp)
      | None => (None, resamp)
      end in
    match ret with
    | Some r' => Done (Resampler.Return r', resamp, s1)
    | None =>
        match checkBuf resamp
                (int32 (f64_ceil_mul (frames r) (sratio resamp))) s1 with
        | Panic => Panic
        | Done (Some e', resamp, s2) =>
            Done (Resampler.Return (mkRaw 0 0 (Some e')), resamp, s2)
        | Done (None, resamp, s2) =>
            Done (Resampler.Convert (planes r) (frames r), resamp, s2)
        end
    end
  else Done (Resampler.Convert 0 0, resamp, s).

Definition convert (resamp : t) (in_ nf_in : Z) (s : Sys)
  : RawResult * t * Sys :=
  let out := data_ptr resamp in
  let '(nfout, s1) :=
    C_swr_convert (ctx resamp) out (nf resamp) in_ nf_in s in
  if nfout =? 0 then (mkRaw 0 0 (Some io_EOF), resamp, s1)
  else (mkRaw out nfout None, resamp, s1).

Definition read_raw (resamp : t) (s : Sys)
  : Outcome (RawResult * t * Sys) :=
  match pull resamp s with
  | Panic => Panic
  | Done (Resampler.Return r, resamp, s1) => Done (r, resamp, s1)
  | Done (Resampler.Convert in_ nf_in, resamp, s1) =>
      Done (convert resamp in_ nf_in s1)
  end.

End Methods.
Arguments t {F} S.
End Draft.

(** ** Opening and closing (audio.go, resample.go)

    The C functions and the C structure fields used when a stream is opened
    and when a stage is closed.  These calls are made once per stream; they
    change the C side but are not entered in the log, which records the
    calls of the streaming phase. *)

Definition int8 (z : Z) : Z := (z + 2 ^ 7) mod 2 ^ 8 - 2 ^ 7.
Definition uint32 (z : Z) : Z := z mod 2 ^ 32.

Class LibavLifecycle {L : Libav} : Type := {
  avformat_find_stream_info : World -> Z -> Z * World;
  (* the stream index, or a negative error code *)
  av_find_best_stream : World -> Z -> Z * World;
  (* fields of AVFormatContext *)
  nb_streams : World -> Z -> Z;
  streams : World -> Z -> Z;
  (* fields of AVStream and of its AVCodecContext *)
  stream_codec : World -> Z -> Z;
  codec_id : World -> Z -> Z;
  sample_rate : World -> Z -> Z;
  sample_fmt : World -> Z -> Z;
  channel_layout : World -> Z -> Z;
  avcodec_find_decoder : World -> Z -> Z;
  avcodec_open2 : World -> Z -> Z -> Z * World;
  (* the new frame object: its address and its contents *)
  av_frame_alloc : World -> Z * AVFrame * World;
  av_init_packet : World -> AVPacket -> AVPacket * World;
  swr_free : World -> Z -> World
}.

(** The [Close] method of the SampleStream interface. *)
Class Closer {L : Libav} (S : Type) : Type := {
  Close : S -> Sys -> S * Sys
}.

Module FormatContext.
Section Methods.
Context {L : Libav} {O : LibavLifecycle}.

Record t : Type := mk { ctx : Z }.

(** The array type [[1 << 10]*C.AVStream] laid over [ctx.streams]. *)
Definition streams_array_len : Z := 2 ^ 10.

Definition stream (format : t) (index : Z) (s : Sys) : Outcome Z :=
  if (index <? 0)
     || (uint32 (nb_streams (world s) (ctx format)) <=? uint32 index)
  then Panic
  else if streams_array_len <=? index then Panic
  else
    Done (load_ptr (world s)
            (uint64 (streams (world s) (ctx format) + index * sizeOfPtr))).

Definition findStreamInfo (format : t) (s : Sys) : option error * Sys :=
  let '(r, w) := avformat_find_stream_info (world s) (ctx format) in
  let s1 := mkSys w (log s) in
  if int32 r <? 0 then (Some (avError (int32 r)), s1) else (None, s1).

Definition OpenAudioStream (format : t) (s : Sys)
  : Outcome (option AudioStream.t * option error * Sys) :=
  let '(e, s) := findStreamInfo format s in
  match e with
  | Some e' => Done (None, Some e', s)
  | None =>
      let '(i, w) := av_find_best_stream (world s) (ctx format) in
      let idx := int32 i in
      let s := mkSys w (log s) in
      if idx <? 0 then Done (None, Some (avError idx), s)
      else
        match stream format idx s with
        | Panic => Panic
        | Done st =>
            let dec_ctx := stream_codec (world s) st in
            let decoder :=
              uint64 (avcodec_find_decoder (world s)
                        (codec_id (world s) dec_ctx)) in
            if decoder =? 0 then
              Done (None, Some (errors_New "No decoder available"), s)
            else
              let '(r, w) := avcodec_open2 (world s) dec_ctx decoder in
              let s := mkSys w (log s) in
              if int32 r <? 0 then Done (None, Some (avError (int32 r)), s)
              else
                let '(fp, fr, w) := av_frame_alloc (world s) in
                let s := mkSys w (log s) in
                if uint64 fp =? 0 then
                  Done (None, Some (errors_New "Couldn't allocate frame"), s)
                else
                  let fmt :=
                    mkAudioFormat
                      (int32 (sample_rate (world s) dec_ctx))
                      (int8 (sample_fmt (world s) dec_ctx))
                      (int64 (channel_layout (world s) dec_ctx)) in
                  let '(_, w) := av_init_packet (world s) (mkPacket 0 0) in
                  Done (Some (AudioStream.mk (ctx format) idx st fmt 0 0
                                (mkPacket 0 0) fr false),
                        None, mkSys w (log s))
        end
  end.

End Methods.
End FormatContext.

Section ResamplerClose.
Context {L : Libav} {O : LibavLifecycle} {F : Float64}
        {S : Type} {CS : Closer S}.

Definition Resampler_with_ctx (resamp : Resampler.t S) (c : Z)
  : Resampler.t S :=
  Resampler.mk (Resampler.fmt resamp) c (Resampler.source resamp)
    (Resampler.sourceEOF resamp) (Resampler.sratio resamp)
    (Resampler.data resamp) (Resampler.nplanes resamp) (Resampler.nf resamp)
    (Resampler.buf resamp).

(** [Resampler.Close] (resample.go); [swr_free] sets [ctx] to nil. *)
Definition Resampler_Close (resamp : Resampler.t S) (s : Sys)
  : Resampler.t S * Sys :=
  let '(resamp, s) :=
    if negb (Resampler.ctx resamp =? 0) then
      let s1 := mkSys (swr_free (world s) (Resampler.ctx resamp)) (log s) in
      let s2 := C_free (Resampler.data resamp) s1 in
      let s3 :=
        if negb (Resampler.buf resamp =? 0) then
          C_free (Resampler.buf resamp) s2
        else s2 in
      (Resampler_with_ctx resamp 0, s3)
    else (resamp, s) in
  let '(src, s') := Close (Resampler.source resamp) s in
  (Resampler.with_source resamp src, s').

End ResamplerClose.

(** Memory behaves as memory: a stored pointer is read back, and a store
    leaves the other cells alone.  The plane table of a resample stage lies
    within the address space. *)
Definition memory_laws {L : Libav} : Prop :=
  (forall (w : World) (a v : Z), load_ptr (store_ptr w a v) a = v) /\
  (forall (w : World) (a b v : Z),
     a <> b -> load_ptr (store_ptr w a v) b = load_ptr w b).

Definition is_free (c : Call) : bool :=
  match c with Call_free _ => true | _ => false end.
Definition is_malloc (c : Call) : bool :=
  match c with Call_malloc _ => true | _ => false end.
Definition is_av_free_packet (c : Call) : bool :=
  match c with Call_av_free_packet => true | _ => false end.
Definition is_decode (c : Call) : bool :=
  match c with Call_avcodec_decode_audio4 => true | _ => false end.

(** The fields of the resample stage that [checkBuf] and [read_raw] never
    assign. *)
Definition same_setup {F : Float64} {S : Type} (r1 r2 : Resampler.t S)
  : Prop :=
  Resampler.fmt r2 = Resampler.fmt r1 /\
  Resampler.ctx r2 = Resampler.ctx r1 /\
  Resampler.data r2 = Resampler.data r1 /\
  Resampler.nplanes r2 = Resampler.nplanes r1 /\
  Resampler.sratio r2 = Resampler.sratio r1.

(** A stream type whose [read_raw] never changes the stream's format. *)
Definition format_stable {L : Libav} (S : Type) {SS : SampleStream S} : Prop :=
  forall (st : S) (s : Sys), Format (snd (fst (read_raw st s))) = Format st.

(** ** A scripted C side

    An instance of [Libav] whose answers are read off lists, used to run the
    package on concrete inputs.  Each list holds the results of the calls to
    one C function in call order; an empty list means the demuxer is at the
    end of the file, the decoder and the converter have nothing to give and
    the allocator is out of memory. *)

Module Script.

Record state : Type := mk {
  packets  : list (Z * Z);          (* av_read_frame: result code, size *)
  decodes  : list (Z * Z * Z * Z);  (* decoder: consumed, got_frame,
                                       extended_data, nb_samples *)
  converts : list Z;                (* swr_convert: output count *)
  allocs   : list Z;                (* malloc, swr_alloc_set_opts: address *)
  cells    : list (Z * Z)           (* pointer cells stored, newest first *)
}.

(** Address of the data of every packet the scripted demuxer hands out. *)
Definition packet_base : Z := 4096.

Definition popcount64 (z : Z) : Z :=
  Z.of_nat (List.length (filter (fun i => Z.testbit z (Z.of_nat i)) (seq 0 64))).

Definition bytes_per_sample (sample_fmt : Z) : Z :=
  if case_of sample_fmt [PackedU8s; PlanarU8s] then 1
  else if case_of sample_fmt [PackedS16s; PlanarS16s] then 2
  else if case_of sample_fmt
            [PackedS32s; PlanarS32s; PackedFloats; PlanarFloats] then 4
  else if case_of sample_fmt [PackedDoubles; PlanarDoubles] then 8
  else 0.

Definition read_frame (w : state) (ctx : Z) (p : AVPacket)
  : Z * AVPacket * state :=
  match packets w with
  | [] => (AVERROR_EOF, mkPacket 0 0, w)
  | (r, size) :: rest =>
      (r, if r =? 0 then mkPacket packet_base size else mkPacket 0 0,
       mk rest (decodes w) (converts w) (allocs w) (cells w))
  end.

Definition decode_audio (w : state) (codec : Z) (fr : AVFrame) (p : AVPacket)
  : Z * Z * AVFrame * state :=
  match decodes w with
  | [] => (0, 0, fr, w)
  | (n, got, ext, nb) :: rest =>
      (n, got, mkFrame ext nb,
       mk (packets w) rest (converts w) (allocs w) (cells w))
  end.

Definition convert (w : state) (ctx out out_count in_ in_count : Z)
  : Z * state :=
  match converts w with
  | [] => (0, w)
  | n :: rest => (n, mk (packets w) (decodes w) rest (allocs w) (cells w))
  end.

Definition alloc (w : state) : Z * state :=
  match allocs w with
  | [] => (0, w)
  | p :: rest => (p, mk (packets w) (decodes w) (converts w) rest (cells w))
  end.

Definition load (w : state) (a : Z) : Z :=
  match find (fun c => fst c =? a) (cells w) with
  | Some c => snd c
  | None => 0
  end.

Definition store (w : state) (a v : Z) : state :=
  mk (packets w) (decodes w) (converts w) (allocs w) ((a, v) :: cells w).

Definition libav : Libav := {|
  World := state;
  av_get_channel_layout_nb_channels := popcount64;
  av_get_bytes_per_sample := bytes_per_sample;
  av_strerror := fun _ => "libav error"%string;
  av_read_frame := read_frame;
  av_free_packet := fun w _ => (mkPacket 0 0, w);
  avcodec_decode_audio4 := decode_audio;
  swr_alloc_set_opts := fun w _ _ _ _ _ _ => alloc w;
  swr_init := fun w _ => (0, w);
  swr_convert := convert;
  malloc := fun w _ => alloc w;
  free := fun w _ => w;
  load_ptr := load;
  store_ptr := store
|}.

(** Exact fractions in the place of float64: [ceil_mul nf (a, b)] is the
    ceiling of [nf * a / b], and [0] for a zero denominator. *)
Definition ceil_mul (nf : Z) (r : Z * Z) : Z :=
  if snd r =? 0 then 0 else - ((- (nf * fst r)) / snd r).

Definition fractions : Float64 := {|
  float64 := Z * Z;
  f64_div := fun a b => (a, b);
  f64_ceil_mul := ceil_mul
|}.

Definition goruntime : @GoRuntime libav :=
  @Build_GoRuntime libav (fun w _ => alloc w).

(** Stereo layout (front left + front right). *)
Definition stereo : ChannelLayout := 3.

Definition fmt_48k_flt : AudioFormat := mkAudioFormat 48000 PackedFloats stereo.
Definition fmt_44k_s16 : AudioFormat := mkAudioFormat 44100 PackedS16s stereo.

Definition sys_of (w : state) : @Sys libav := @mkSys libav w [].

(** A freshly opened decoder stage, as [OpenAudioStream] leaves it. *)
Definition audio0 (f : AudioFormat) : AudioStream.t :=
  AudioStream.mk 1 0 2 f 0 0 (mkPacket 0 0) (mkFrame 0 0) false.

(** A decoder stage whose demuxer has already reported the end. *)
Definition audio_eof (f : AudioFormat) : AudioStream.t :=
  AudioStream.mk 1 0 2 f 0 0 (mkPacket 0 0) (mkFrame 0 0) true.

(** A resample stage 48 kHz -> 44.1 kHz, as [Resample] builds it, with its
    pointer table at address [8192]. *)
Definition resampler0 : @Resampler.t fractions AudioStream.t :=
  @Resampler.mk fractions AudioStream.t fmt_44k_s16 12288
    (audio0 fmt_48k_flt) false (44100, 48000) 8192 1 0 0.


(** The draft's stage before its first [read_raw]: no plane slice yet. *)
Definition draft0 : @Draft.t fractions AudioStream.t :=
  @Draft.mk fractions AudioStream.t fmt_44k_s16 12288
    (audio0 fmt_48k_flt) false (44100, 48000) 0 [] 0.

(** Two packets, each decoded to one frame object (1 and 1000 samples); the
    converter keeps the first sample in its filter and emits nothing. *)
Definition world_buffering : state :=
  mk [(0, 4); (0, 4)]
     [(4, 1, 20480, 1); (4, 1, 20480, 1000)]
     [0; 919]
     [12288; 8192; 16384; 24576]
     [].


(** Everything drained: no packets, no frames, no converter output. *)
Definition world_drained : state := mk [] [] [] [] [].

(** A decoder that claims to have consumed ten bytes and produced a frame
    of five samples. *)
Definition world_greedy_decoder : state :=
  mk [] [(10, 1, 20480, 5)] [] [] [].

(** A decoder stage holding a packet with four bytes left. *)
Definition audio_mid_packet (f : AudioFormat) : AudioStream.t :=
  AudioStream.mk 1 0 2 f 0 0 (mkPacket packet_base 4) (mkFrame 0 0) false.

(** One packet from which the decoder produces no frame yet. *)
Definition world_no_frame_yet : state :=
  mk [(0, 4); (0, 4)] [(4, 0, 0, 0); (4, 1, 20480, 7)] [6] [16384] [].

(** One packet decoded to three stereo frames; the plane table at [20480]
    holds the address of the sample data, [28672]. *)
Definition world_one_frame : state :=
  mk [(0, 12)] [(12, 1, 20480, 3)] [] [] [(20480, 28672)].

Definition reader_s16 : PackedS16Stream.t AudioStream.t :=
  PackedS16Stream.mk (audio0 fmt_44k_s16).

Definition reader_s16_eof : PackedS16Stream.t AudioStream.t :=
  PackedS16Stream.mk (audio_eof fmt_44k_s16).

(** A decoder that comes up with a frame after a call that produced none
    although the demuxer was already at its end. *)
Definition world_late_frame : state :=
  mk [] [(0, 0, 0, 0); (0, 1, 20480, 5)] [] [] [].


(** A demuxer that fails with an I/O error (EIO). *)
Definition world_io_error : state :=
  mk [(-5, 0)] [(4, 1, 20480, 1)] [] [] [].

(** A container with one audio stream: stream 0 is the object at [45056],
    decoded to 48 kHz packed float stereo; the frame object is allocated
    from [allocs]. *)
Definition lifecycle : @LibavLifecycle libav :=
  @Build_LibavLifecycle libav
    (fun w _ => (0, w))                 (* avformat_find_stream_info *)
    (fun w _ => (0, w))                 (* av_find_best_stream *)
    (fun _ _ => 1)                      (* nb_streams *)
    (fun _ _ => 40960)                  (* streams *)
    (fun _ st => st + 16)               (* stream_codec *)
    (fun _ _ => 86017)                  (* codec_id *)
    (fun _ _ => 48000)                  (* sample_rate *)
    (fun _ _ => PackedFloats)           (* sample_fmt *)
    (fun _ _ => stereo)                 (* channel_layout *)
    (fun _ _ => 53248)                  (* avcodec_find_decoder *)
    (fun w _ _ => (0, w))               (* avcodec_open2 *)
    (fun w => (fst (alloc w), mkFrame 0 0, snd (alloc w)))
    (fun w p => (p, w))                 (* av_init_packet *)
    (fun w _ => w).                     (* swr_free *)

Definition format_context : FormatContext.t := FormatContext.mk 1.

Definition world_container : state :=
  mk [(0, 4)] [(4, 1, 20480, 1)] [] [49152] [(40960, 45056)].

(** A source that only counts how often it is closed. *)
Definition close_counter : @Closer libav nat :=
  @Build_Closer libav nat (fun n (s : @Sys libav) => (Datatypes.S n, s)).

Definition resampler_to_close : @Resampler.t fractions nat :=
  @Resampler.mk fractions nat fmt_44k_s16 12288 O true (44100, 48000)
    8192 1 919 24576.

(** A resample stage over the fresh decoder stage with 919 frames and a
    block at [24576] allocated. *)
Definition resampler_to_close_source : @Resampler.t fractions AudioStream.t :=
  @Resampler.mk fractions AudioStream.t fmt_44k_s16 12288
    (audio0 fmt_48k_flt) false (44100, 48000) 8192 1 919 24576.

(** An allocator with one block left, at [16384]. *)
Definition world_one_block : state := mk [] [] [] [16384] [].

(** A packet from which the decoder produces no frame, and a converter
    with nothing to emit. *)
Definition world_no_frame_then_nothing : state :=
  mk [(0, 4)] [(4, 0, 0, 0)] [] [] [].

Definition sys_of_log (w : state) (l : list Call) : @Sys libav :=
  @mkSys libav w l.

End Script.

(** * Properties *)

(** ** Machine integers *)

Lemma int32_id (z : Z) : in_int32 z -> int32 z = z.
Proof.
  unfold in_int32, int32. intros H.
  rewrite Z.mod_small by lia. lia.
Qed.

Lemma int32_range (z : Z) : in_int32 (int32 z).
Proof.
  unfold in_int32, int32.
  pose proof (Z.mod_pos_bound (z + 2 ^ 31) (2 ^ 32) ltac:(lia)). lia.
Qed.

Lemma int64_id (z : Z) : in_int64 z -> int64 z = z.
Proof.
  unfold in_int64, int64. intros H.
  rewrite Z.mod_small by lia. lia.
Qed.

Lemma int32_mul_in_int64 (a b : Z) :
  in_int32 a -> in_int32 b -> in_int64 (a * b).
Proof.
  unfold in_int32, in_int64. intros Ha Hb. nia.
Qed.

Lemma uint64_add_idemp (a b : Z) : uint64 (a + uint64 b) = uint64 (a + b).
Proof. unfold uint64. apply Zplus_mod_idemp_r. Qed.

(** ** Audio formats *)

Section FormatProperties.
Context {L : Libav}.

Lemma case_of_In (x : Z) (l : list Z) : case_of x l = true <-> In x l.
Proof.
  unfold case_of. rewrite existsb_exists. split.
  - intros [y [Hy Heq]]. apply Z.eqb_eq in Heq. now subst.
  - intros H. exists x. split; [assumption | apply Z.eqb_refl].
Qed.

Lemma case_of_not_In (x : Z) (l : list Z) : ~ In x l -> case_of x l = false.
Proof.
  intros H. destruct (case_of x l) eqn:E; [|reflexivity].
  apply case_of_In in E. contradiction.
Qed.

Lemma packed_not_planar (x : Z) :
  In x packed_formats -> case_of x planar_formats = false.
Proof.
  intros H. apply case_of_not_In. intros H'.
  unfold packed_formats, planar_formats in *. simpl in *.
  unfold PackedU8s, PackedS16s, PackedS32s, PackedFloats, PackedDoubles,
    PlanarU8s, PlanarS16s, PlanarS32s, PlanarFloats, PlanarDoubles in *.
  lia.
Qed.

(** C7. Plane count law: a packed storage gives one plane, a planar storage
    gives as many planes as the layout has channels, and every other storage
    value, the sentinel [NoSamples] among them, gives no plane. *)
Theorem NumPlanes_by_storage (format : AudioFormat) :
  (In (Storage format) packed_formats -> NumPlanes format = 1) /\
  (In (Storage format) planar_formats ->
   NumPlanes format = NumChannels format) /\
  (~ In (Storage format) packed_formats ->
   ~ In (Storage format) planar_formats -> NumPlanes format = 0) /\
  NumPlanes (mkAudioFormat (Rate format) NoSamples (Layout format)) = 0.
Proof.
  unfold NumPlanes. repeat split.
  - intros H. apply case_of_In in H. now rewrite H.
  - intros H. destruct (case_of (Storage format) packed_formats) eqn:E.
    + apply case_of_In in E. apply packed_not_planar in E.
      apply case_of_In in H. congruence.
    + apply case_of_In in H. now rewrite H.
  - intros H1 H2.
    now rewrite (case_of_not_In _ _ H1), (case_of_not_In _ _ H2).
Qed.

Lemma Equal_refl (f : AudioFormat) : Equal f f = true.
Proof. unfold Equal. now rewrite !Z.eqb_refl. Qed.

Lemma Equal_eq (f g : AudioFormat) : Equal f g = true <-> f = g.
Proof.
  unfold Equal. rewrite !andb_true_iff, !Z.eqb_eq.
  destruct f, g; simpl. split.
  - intros [[-> ->] ->]. reflexivity.
  - intros H. injection H as -> -> ->. auto.
Qed.

End FormatProperties.

(** ** Construction of the resample stage *)

(** C5. Format equality is reflexive, and a conversion requested to a format
    equal to the source's hands back the source itself with no error; the C
    side is left as it was, so no converter context has been allocated. *)
Theorem Resample_equal_format_is_identity
    {L : Libav} {F : Float64} {S : Type} {SS : SampleStream S}
    (source : S) (to : AudioFormat) (s : Sys) :
  Equal to to = true /\
  (Equal (Format source) to = true ->
   Resample source to s = (Some (Direct source), None, s) /\
   filter (fun c => match c with Call_swr_alloc_set_opts => true
                              | _ => false end)
          (log (snd (Resample source to s))) =
   filter (fun c => match c with Call_swr_alloc_set_opts => true
                              | _ => false end)
          (log s)).
Proof.
  split; [apply Equal_refl|].
  intros H. unfold Resample. rewrite H. split; reflexivity.
Qed.

(** ** The decoder stage *)

Section AudioStreamProperties.
Context {L : Libav}.
Import AudioStream.

(** C6. When the decoder reports a non-negative consumed-byte count [n], the
    packet cursor advances by [n] clamped to the remaining size, the
    remaining size shrinks by the same amount, and it is not negative
    afterwards. *)
Theorem decode_advances_by_clamped_count
    (audio : t) (s s1 : Sys) (n got : Z) (fr : AVFrame) :
  C_avcodec_decode_audio4 (stream audio) (frame audio) (pkt audio) s
    = (n, got, fr, s1) ->
  0 <= n ->
  in_int32 (pkt_size (pkt audio)) ->
  let consumed := Z.min n (pkt_size (pkt audio)) in
  let '(_, e, audio', _) := decode audio s in
  e = None /\
  pkt_data (pkt audio') = uint64 (pkt_data (pkt audio) + consumed) /\
  pkt_size (pkt audio') = pkt_size (pkt audio) - consumed /\
  0 <= pkt_size (pkt audio').
Proof.
  intros Hcall Hn Hsize consumed. unfold decode. rewrite Hcall.
  destruct (n <? 0) eqn:Hneg; [apply Z.ltb_lt in Hneg; lia|].
  cbn [with_frame with_pkt pkt pkt_data pkt_size].
  assert (Hc : (if n >? pkt_size (pkt audio) then pkt_size (pkt audio) else n)
               = consumed).
  { unfold consumed. destruct (n >? pkt_size (pkt audio)) eqn:E.
    - apply Z.gtb_lt in E. lia.
    - rewrite Z.gtb_ltb in E. apply Z.ltb_ge in E. lia. }
  rewrite Hc, uint64_add_idemp.
  assert (Hr : in_int32 (pkt_size (pkt audio) - consumed)).
  { unfold in_int32 in *. unfold consumed. lia. }
  rewrite (int32_id _ Hr).
  repeat split; try reflexivity. unfold consumed. lia.
Qed.

Lemma decode_keeps_framesEOF (audio : t) (s : Sys) :
  framesEOF (snd (fst (decode audio s))) = framesEOF audio.
Proof.
  unfold decode.
  destruct (C_avcodec_decode_audio4 _ _ _ s) as [[[n got] fr] s1].
  destruct (n <? 0); reflexivity.
Qed.

(** C3. When the decode step succeeds: a produced frame is returned with its
    plane table and sample count and no error; without a frame the call
    reports the end of the stream if the demuxer has reported the end
    ([framesEOF] set), and an empty result with no error otherwise. *)
Theorem read_raw_after_successful_decode
    (audio a1 a2 : t) (s s1 s2 : Sys) (gotFrame : bool) :
  refill audio s = (None, a1, s1) ->
  decode a1 s1 = (gotFrame, None, a2, s2) ->
  framesEOF a2 = framesEOF a1 /\
  read_raw audio s =
    (if gotFrame then
       mkRaw (extended_data (frame a2)) (nb_samples (frame a2)) None
     else if framesEOF a1 then mkRaw 0 0 (Some io_EOF)
     else mkRaw 0 0 None,
     a2, s2).
Proof.
  intros Hrefill Hdecode.
  assert (Hflag : framesEOF a2 = framesEOF a1).
  { rewrite <- (decode_keeps_framesEOF a1 s1). now rewrite Hdecode. }
  split; [exact Hflag|].
  unfold read_raw. rewrite Hrefill, Hdecode, Hflag.
  destruct gotFrame; simpl; [reflexivity|].
  destruct (framesEOF a1); reflexivity.
Qed.

End AudioStreamProperties.

(** ** The resample stage *)

Section ResamplerProperties.
Context {L : Libav} {F : Float64} {S : Type} {SS : SampleStream S}.

Lemma convert_result (resamp : Resampler.t S) (in_ nf_in : Z) (s : Sys) :
  let out :=
    C_swr_convert (Resampler.ctx resamp) (Resampler.data resamp)
      (Resampler.nf resamp) in_ nf_in s in
  Resampler.convert resamp in_ nf_in s =
    (if fst out =? 0 then mkRaw 0 0 (Some io_EOF)
     else mkRaw (Resampler.data resamp) (fst out) None,
     resamp, snd out).
Proof.
  unfold Resampler.convert.
  destruct (C_swr_convert _ _ _ in_ nf_in s) as [nfout s1]. simpl.
  destruct (nfout =? 0); reflexivity.
Qed.

Lemma C_swr_convert_log (ctx out cap in_ nf_in : Z) (s : Sys) :
  log (snd (C_swr_convert ctx out cap in_ nf_in s))
  = log s ++ [Call_swr_convert cap nf_in].
Proof.
  unfold C_swr_convert.
  destruct (swr_convert _ _ _ _ _ _) as [x w]. reflexivity.
Qed.

Lemma Resampler_read_raw_convert
    (resamp r1 : Resampler.t S) (s s1 : Sys) (in_ nf_in : Z) :
  Resampler.pull resamp s = (Resampler.Convert in_ nf_in, r1, s1) ->
  let out :=
    C_swr_convert (Resampler.ctx r1) (Resampler.data r1)
      (Resampler.nf r1) in_ nf_in s1 in
  let '(r, _, s2) := Resampler.read_raw resamp s in
  reports_output r (Resampler.data r1) (fst out) /\
  log s2 = log s1 ++ [Call_swr_convert (Resampler.nf r1) nf_in].
Proof.
  intros Hpull out. unfold Resampler.read_raw. rewrite Hpull.
  pose proof (convert_result r1 in_ nf_in s1) as Hc. cbv zeta in Hc.
  fold out in Hc. rewrite Hc. clear Hc.
  split; [|apply C_swr_convert_log]. unfold reports_output.
  destruct (fst out =? 0) eqn:E.
  - apply Z.eqb_eq in E. repeat split; auto; intros; congruence.
  - apply Z.eqb_neq in E. repeat split; auto; simpl; intros; congruence.
Qed.

(** C9. While the wrapped source is not exhausted, a pull that yields zero
    frames and no error makes [read_raw] return zero frames and no error at
    once: the C side is exactly as the source left it, so neither the
    allocator nor the converter has been invoked. *)
Theorem read_raw_zero_frames_skips_converter
    (resamp : Resampler.t S) (s s1 : Sys) (r : RawResult) (src : S) :
  Resampler.sourceEOF resamp = false ->
  read_raw (Resampler.source resamp) s = (r, src, s1) ->
  err r = None ->
  frames r = 0 ->
  Resampler.read_raw resamp s
    = (mkRaw 0 0 None, Resampler.with_source resamp src, s1) /\
  Resampler.sourceEOF (Resampler.with_source resamp src) = false /\
  log (snd (Resampler.read_raw resamp s)) = log s1.
Proof.
  intros Heof Hsrc Herr Hnf.
  assert (H : Resampler.read_raw resamp s
              = (mkRaw 0 0 None, Resampler.with_source resamp src, s1)).
  { unfold Resampler.read_raw, Resampler.pull. rewrite Heof. cbn [negb].
    rewrite Hsrc, Herr, Hnf. reflexivity. }
  rewrite H. auto.
Qed.

(** *** Output capacity *)





End ResamplerProperties.

Section ConverterOutput.
Context {L : Libav} {G : GoRuntime} {F : Float64}
        {S : Type} {SS : SampleStream S}.

Lemma Draft_read_raw_convert
    (resamp r1 : Draft.t S) (s s1 : Sys) (in_ nf_in : Z) :
  Draft.pull resamp s = Done (Resampler.Convert in_ nf_in, r1, s1) ->
  let out :=
    C_swr_convert (Draft.ctx r1) (Draft.data_ptr r1) (Draft.nf r1)
      in_ nf_in s1 in
  exists (r : RawResult) (s2 : Sys),
    Draft.read_raw resamp s = Done (r, r1, s2) /\
    reports_output r (Draft.data_ptr r1) (fst out) /\
    log s2 = log s1 ++ [Call_swr_convert (Draft.nf r1) nf_in].
Proof.
  intros Hpull out. unfold Draft.read_raw. rewrite Hpull.
  unfold Draft.convert. fold out.
  pose proof (C_swr_convert_log (Draft.ctx r1) (Draft.data_ptr r1)
                (Draft.nf r1) in_ nf_in s1) as Hlog. fold out in Hlog.
  destruct out as [nfout s2]. cbn [fst snd] in *.
  destruct (nfout =? 0) eqn:E.
  - apply Z.eqb_eq in E. eexists _, _. split; [reflexivity|].
    split; [|exact Hlog]. unfold reports_output.
    repeat split; auto; intros; congruence.
  - apply Z.eqb_neq in E. eexists _, _. split; [reflexivity|].
    split; [|exact Hlog]. unfold reports_output.
    repeat split; auto; simpl; intros; congruence.
Qed.

(** C2. A [read_raw] call that reaches the converter reports the end of the
    stream exactly when the converter's output count is zero, whatever the
    state of the wrapped source; any other count is returned with the output
    plane table and no error.  This holds for the resample stage of
    resample.go and for its draft in resamp.go. *)
Theorem read_raw_eof_iff_zero_output (in_ nf_in : Z) (s s1 : Sys) :
  (forall resamp r1 : Resampler.t S,
     Resampler.pull resamp s = (Resampler.Convert in_ nf_in, r1, s1) ->
     let out :=
       C_swr_convert (Resampler.ctx r1) (Resampler.data r1)
         (Resampler.nf r1) in_ nf_in s1 in
     let '(r, _, s2) := Resampler.read_raw resamp s in
     reports_output r (Resampler.data r1) (fst out) /\
     log s2 = log s1 ++ [Call_swr_convert (Resampler.nf r1) nf_in]) /\
  (forall resamp r1 : Draft.t S,
     Draft.pull resamp s = Done (Resampler.Convert in_ nf_in, r1, s1) ->
     let out :=
       C_swr_convert (Draft.ctx r1) (Draft.data_ptr r1) (Draft.nf r1)
         in_ nf_in s1 in
     exists (r : RawResult) (s2 : Sys),
       Draft.read_raw resamp s = Done (r, r1, s2) /\
       reports_output r (Draft.data_ptr r1) (fst out) /\
       log s2 = log s1 ++ [Call_swr_convert (Draft.nf r1) nf_in]).
Proof.
  split.
  - intros resamp r1. apply Resampler_read_raw_convert.
  - intros resamp r1. apply Draft_read_raw_convert.
Qed.

End ConverterOutput.

(** ** End of stream *)

Section EndOfStream.
Context {L : Libav} {F : Float64}.






End EndOfStream.

(** ** The typed reader *)

Section PackedS16StreamProperties.
Context {L : Libav} {S : Type} {SS : SampleStream S}.

Lemma NumChannels_in_int32 (f : AudioFormat) : in_int32 (NumChannels f).
Proof. unfold NumChannels. apply int32_range. Qed.

(** C8. A successful [Read] whose source returned a plane table yields a
    slice of [NumChannels * frames] elements laid directly over the first
    (single, packed) plane: its data pointer is the plane pointer stored in
    the table and nothing is allocated or copied.  A source that returned no
    plane table and no error yields the empty slice and no error. *)
Theorem Read_length_is_channels_times_frames
    (stream : PackedS16Stream.t S) (s s1 : Sys) (r : RawResult) (src : S) :
  read_raw (PackedS16Stream.source stream) s = (r, src, s1) ->
  err r = None ->
  in_int32 (frames r) ->
  let ns := NumChannels (Format src) * frames r in
  let '(sl, e, _, s2) := PackedS16Stream.Read stream s in
  e = None /\ s2 = s1 /\
  (planes r <> 0 ->
   sl = SliceHeader (load_ptr (world s1) (planes r)) ns ns /\ len sl = ns) /\
  (planes r = 0 -> sl = empty_slice /\ len sl = 0).
Proof.
  intros Hsrc Herr Hnf ns.
  unfold PackedS16Stream.Read. rewrite Hsrc, Herr.
  assert (Hns : int64 ns = ns).
  { apply int64_id, int32_mul_in_int64;
      [apply NumChannels_in_int32 | assumption]. }
  fold ns. rewrite Hns.
  destruct (planes r =? 0) eqn:E.
  - apply Z.eqb_eq in E. repeat split; auto; intros; congruence.
  - apply Z.eqb_neq in E. repeat split; auto; intros; congruence.
Qed.

(** C10. When the source's [read_raw] returns an error, [io.EOF] included,
    [Read] returns the empty slice together with that very error. *)
Theorem Read_error_gives_empty_slice
    (stream : PackedS16Stream.t S) (s s1 : Sys) (r : RawResult) (src : S)
    (e : error) :
  read_raw (PackedS16Stream.source stream) s = (r, src, s1) ->
  err r = Some e ->
  let '(sl, e', _, s2) := PackedS16Stream.Read stream s in
  sl = empty_slice /\ len sl = 0 /\ e' = Some e /\ s2 = s1.
Proof.
  intros Hsrc Herr.
  unfold PackedS16Stream.Read. rewrite Hsrc, Herr. auto.
Qed.

End PackedS16StreamProperties.

(** * Concrete runs on the scripted C side *)

Lemma NumPlanes_by_storage_witness :
  @NumPlanes Script.libav Script.fmt_44k_s16 = 1 /\
  @NumPlanes Script.libav (mkAudioFormat 44100 PlanarFloats Script.stereo) = 2 /\
  @NumPlanes Script.libav (mkAudioFormat 44100 12 Script.stereo) = 0.
Proof.
  split; [|split].
  - apply (@NumPlanes_by_storage Script.libav Script.fmt_44k_s16).
    simpl. auto.
  - pose proof (@NumPlanes_by_storage Script.libav
                  (mkAudioFormat 44100 PlanarFloats Script.stereo))
      as (_ & H & _).
    rewrite H; [reflexivity | simpl; auto 10].
  - apply (@NumPlanes_by_storage Script.libav
             (mkAudioFormat 44100 12 Script.stereo));
      vm_compute; intuition discriminate.
Defined.

Lemma Resample_equal_format_is_identity_witness :
  Resample (Script.audio0 Script.fmt_48k_flt) Script.fmt_48k_flt
    (Script.sys_of Script.world_buffering)
  = (Some (@Direct Script.fractions _ (Script.audio0 Script.fmt_48k_flt)),
     None, Script.sys_of Script.world_buffering).
Proof.
  apply (@Resample_equal_format_is_identity Script.libav Script.fractions
           _ _ (Script.audio0 Script.fmt_48k_flt) Script.fmt_48k_flt
           (Script.sys_of Script.world_buffering)).
  reflexivity.
Defined.

Lemma decode_advances_by_clamped_count_witness :
  let audio := Script.audio_mid_packet Script.fmt_48k_flt in
  let '(_, e, audio', _) :=
    AudioStream.decode audio (Script.sys_of Script.world_greedy_decoder) in
  e = None /\
  pkt_data (AudioStream.pkt audio') = Script.packet_base + 4 /\
  pkt_size (AudioStream.pkt audio') = 0.
Proof.
  pose proof (@decode_advances_by_clamped_count Script.libav
                (Script.audio_mid_packet Script.fmt_48k_flt)
                (Script.sys_of Script.world_greedy_decoder)
                _ 10 1 (mkFrame 20480 5) eq_refl) as H.
  assert (H0 : 0 <= 10) by lia.
  assert (H1 : in_int32 (pkt_size (AudioStream.pkt
                 (Script.audio_mid_packet Script.fmt_48k_flt))))
    by (unfold in_int32; simpl; lia).
  specialize (H H0 H1). cbv zeta in H |- *.
  destruct (AudioStream.decode _ _) as [[[g e] a] s'].
  destruct H as (He & Hd & Hs & _).
  split; [exact He | split; [rewrite Hd | rewrite Hs]; reflexivity].
Defined.

Lemma read_raw_after_successful_decode_witness :
  fst (fst (AudioStream.read_raw (Script.audio0 Script.fmt_48k_flt)
              (Script.sys_of Script.world_buffering)))
  = mkRaw 20480 1 None.
Proof.
  pose proof (@read_raw_after_successful_decode Script.libav
    (Script.audio0 Script.fmt_48k_flt)
    (snd (fst (AudioStream.refill (Script.audio0 Script.fmt_48k_flt)
                 (Script.sys_of Script.world_buffering))))
    (snd (fst (AudioStream.read_raw (Script.audio0 Script.fmt_48k_flt)
                 (Script.sys_of Script.world_buffering))))
    (Script.sys_of Script.world_buffering)
    (snd (AudioStream.refill (Script.audio0 Script.fmt_48k_flt)
            (Script.sys_of Script.world_buffering)))
    (snd (AudioStream.read_raw (Script.audio0 Script.fmt_48k_flt)
            (Script.sys_of Script.world_buffering)))
    true eq_refl eq_refl) as [_ H].
  rewrite H. reflexivity.
Defined.

Lemma read_raw_eof_iff_zero_output_witness :
  err (fst (fst (Resampler.read_raw Script.resampler0
                   (Script.sys_of Script.world_buffering))))
  = Some io_EOF /\
  (exists r2 s2,
     @Draft.read_raw Script.libav Script.goruntime Script.fractions
       AudioStream.t _ Script.draft0 (Script.sys_of Script.world_buffering)
     = Done (mkRaw 0 0 (Some io_EOF), r2, s2)).
Proof.
  pose proof (@read_raw_eof_iff_zero_output Script.libav Script.goruntime
    Script.fractions AudioStream.t _ 20480 1
    (Script.sys_of Script.world_buffering)
    (snd (Resampler.pull Script.resampler0
            (Script.sys_of Script.world_buffering)))) as [HR _].
  pose proof (@read_raw_eof_iff_zero_output Script.libav Script.goruntime
    Script.fractions AudioStream.t _ 20480 1
    (Script.sys_of Script.world_buffering)
    (@mkSys Script.libav
       (Script.mk [(0, 4)] [(4, 1, 20480, 1000)] [0; 919] [16384; 24576] [])
       [Call_av_read_frame; Call_avcodec_decode_audio4; Call_malloc 2]))
    as [_ HD].
  split.
  - specialize (HR Script.resampler0
      (snd (fst (Resampler.pull Script.resampler0
                   (Script.sys_of Script.world_buffering))))
      eq_refl).
    cbv zeta in HR.
    destruct (Resampler.read_raw _ _) as [[r r1] s2].
    destruct HR as [[[_ H] _] _]. apply H. reflexivity.
  - specialize (HD Script.draft0
      (@Draft.mk Script.fractions AudioStream.t Script.fmt_44k_s16 12288
         (AudioStream.mk 1 0 2 Script.fmt_48k_flt 0 0
            (mkPacket (Script.packet_base + 4) 0) (mkFrame 20480 1) false)
         false (44100, 48000) 12288 [8192] 1)
      eq_refl).
    cbv zeta in HD.
    destruct HD as (r & s2 & Hrun & [_ [Hz _]] & _).
    rewrite Hrun. rewrite (Hz eq_refl). eauto.
Defined.

Lemma read_raw_zero_frames_skips_converter_witness :
  fst (fst (Resampler.read_raw Script.resampler0
              (Script.sys_of Script.world_no_frame_yet)))
  = mkRaw 0 0 None /\
  filter is_swr_convert
    (log (snd (Resampler.read_raw Script.resampler0
                 (Script.sys_of Script.world_no_frame_yet)))) = [].
Proof.
  pose proof (@read_raw_zero_frames_skips_converter Script.libav
    Script.fractions _ _ Script.resampler0
    (Script.sys_of Script.world_no_frame_yet)
    (snd (AudioStream.read_raw (Script.audio0 Script.fmt_48k_flt)
            (Script.sys_of Script.world_no_frame_yet)))
    (mkRaw 0 0 None)
    (snd (fst (AudioStream.read_raw (Script.audio0 Script.fmt_48k_flt)
                 (Script.sys_of Script.world_no_frame_yet))))
    eq_refl eq_refl eq_refl eq_refl) as (H1 & _ & H2).
  rewrite H2, H1. split; reflexivity.
Defined.


Lemma Read_length_is_channels_times_frames_witness :
  let '(sl, e, _, _) :=
    PackedS16Stream.Read Script.reader_s16
      (Script.sys_of Script.world_one_frame) in
  e = None /\ sl = SliceHeader 28672 6 6 /\ len sl = 2 * 3.
Proof.
  pose proof (@Read_length_is_channels_times_frames Script.libav _ _
    Script.reader_s16 (Script.sys_of Script.world_one_frame)
    (snd (AudioStream.read_raw (Script.audio0 Script.fmt_44k_s16)
            (Script.sys_of Script.world_one_frame)))
    (mkRaw 20480 3 None)
    (snd (fst (AudioStream.read_raw (Script.audio0 Script.fmt_44k_s16)
                 (Script.sys_of Script.world_one_frame))))
    eq_refl eq_refl) as H.
  assert (Hr : in_int32 (frames (mkRaw 20480 3 None)))
    by (unfold in_int32; simpl; lia).
  specialize (H Hr). cbv zeta in H.
  destruct (PackedS16Stream.Read _ _) as [[[sl e] st] s2].
  destruct H as (He & _ & Hsl & _).
  assert (Hp : planes (mkRaw 20480 3 None) <> 0) by (simpl; lia).
  destruct (Hsl Hp) as [H1 H2].
  split; [exact He | split; [rewrite H1 | rewrite H2]; reflexivity].
Defined.

Lemma Read_error_gives_empty_slice_witness :
  let '(sl, e, _, _) :=
    PackedS16Stream.Read Script.reader_s16_eof
      (Script.sys_of Script.world_drained) in
  sl = empty_slice /\ e = Some io_EOF.
Proof.
  pose proof (@Read_error_gives_empty_slice Script.libav _ _
    Script.reader_s16_eof (Script.sys_of Script.world_drained)
    (snd (AudioStream.read_raw (Script.audio_eof Script.fmt_44k_s16)
            (Script.sys_of Script.world_drained)))
    (mkRaw 0 0 (Some io_EOF))
    (snd (fst (AudioStream.read_raw (Script.audio_eof Script.fmt_44k_s16)
                 (Script.sys_of Script.world_drained))))
    io_EOF eq_refl eq_refl) as H.
  destruct (PackedS16Stream.Read _ _) as [[[sl e] st] s2].
  destruct H as (H1 & _ & H2 & _). split; assumption.
Defined.

(** The stage [Script.resampler0] is what [Resample] builds from the fresh
    decoder stage once the context and the pointer table are allocated. *)
Example Resample_builds_resampler0 :
  fst (Resample (Script.audio0 Script.fmt_48k_flt) Script.fmt_44k_s16
         (Script.sys_of (Script.mk [] [] [] [12288; 8192] [])))
  = (Some (Resampled Script.resampler0), None).
Proof. reflexivity. Qed.


(** The decoder stage returns whatever the decoder yields: with the demuxer
    at its end, a call in which the decoder produces no frame returns
    [io.EOF], and a later call in which it produces one returns the frame. *)
Example AudioStream_eof_depends_on_decoder :
  map err (fst (fst (read_raw_n 3 (Script.audio_eof Script.fmt_48k_flt)
                       (Script.sys_of Script.world_late_frame))))
  = [Some io_EOF; None; Some io_EOF].
Proof. reflexivity. Qed.



(** * Further properties of the package *)

(** ** Formats *)

(** X1. [Equal] returns true exactly on identical formats; it is therefore
    symmetric and transitive. *)
Theorem Equal_decides_equality (f g h : AudioFormat) :
  (Equal f g = true <-> f = g) /\
  Equal f g = Equal g f /\
  (Equal f g = true -> Equal g h = true -> Equal f h = true).
Proof.
  split; [apply Equal_eq|]. split.
  - unfold Equal.
    now rewrite (Z.eqb_sym (Rate f)), (Z.eqb_sym (Storage f)),
      (Z.eqb_sym (Layout f)).
  - intros H1 H2. apply Equal_eq in H1, H2. subst. apply Equal_refl.
Qed.

Lemma Equal_decides_equality_witness :
  Equal Script.fmt_48k_flt Script.fmt_44k_s16 = false /\
  Equal Script.fmt_48k_flt (mkAudioFormat 48000 PackedFloats 3) = true.
Proof.
  split.
  - destruct (Equal Script.fmt_48k_flt Script.fmt_44k_s16) eqn:E;
      [|reflexivity].
    apply (proj1 (proj1 (Equal_decides_equality _ _ Script.fmt_48k_flt)))
      in E.
    unfold Script.fmt_48k_flt, Script.fmt_44k_s16 in E. discriminate E.
  - apply (proj2 (proj1 (Equal_decides_equality _ _ Script.fmt_48k_flt))).
    reflexivity.
Defined.

(** ** The decoder stage *)

Section AudioStreamFurther.
Context {L : Libav}.

Lemma avError_EOF_iff (errnum : Z) :
  avError errnum = io_EOF <-> errnum = AVERROR_EOF.
Proof.
  unfold avError. destruct (errnum =? AVERROR_EOF) eqn:E.
  - apply Z.eqb_eq in E. tauto.
  - apply Z.eqb_neq in E. split; [discriminate | contradiction].
Qed.

Lemma C_av_read_frame_log (c : Z) (p : AVPacket) (s : Sys) :
  log (snd (C_av_read_frame c p s)) = log s ++ [Call_av_read_frame].
Proof.
  unfold C_av_read_frame. destruct (av_read_frame _ _ _) as [[r p'] w].
  reflexivity.
Qed.

Lemma C_decode_log (c : Z) (fr : AVFrame) (p : AVPacket) (s : Sys) :
  log (snd (C_avcodec_decode_audio4 c fr p s))
  = log s ++ [Call_avcodec_decode_audio4].
Proof.
  unfold C_avcodec_decode_audio4.
  destruct (avcodec_decode_audio4 _ _ _ _) as [[[n g] fr'] w]. reflexivity.
Qed.

(** X2. With no saved packet ([orig.data] nil), [read_frame] makes exactly
    one call, [av_read_frame], stores the packet it delivers, and maps the
    result code: nil exactly for 0, [io.EOF] exactly for [AVERROR_EOF], and
    another error in every other case. *)
Theorem read_frame_maps_result_code (audio : AudioStream.t) (s : Sys) :
  AudioStream.orig_data audio = 0 ->
  let '(r, p, s1) :=
    C_av_read_frame (AudioStream.ctx audio) (AudioStream.pkt audio) s in
  let '(e, audio', s') := AudioStream.read_frame audio s in
  audio' = AudioStream.with_pkt audio p /\
  s' = s1 /\
  log s' = log s ++ [Call_av_read_frame] /\
  (e = None <-> r = 0) /\
  (e = Some io_EOF <-> r = AVERROR_EOF) /\
  (r <> 0 -> r <> AVERROR_EOF ->
   e = Some (errors_New (av_strerror r))).
Proof.
  intros Horig.
  pose proof (C_av_read_frame_log (AudioStream.ctx audio)
                (AudioStream.pkt audio) s) as Hlog.
  unfold AudioStream.read_frame. rewrite Horig. cbn [Z.eqb negb].
  destruct (C_av_read_frame _ _ s) as [[r p] s1]. cbn [snd] in Hlog.
  destruct (r =? 0) eqn:E.
  - apply Z.eqb_eq in E. subst r.
    repeat split; auto; try discriminate; try contradiction.
  - apply Z.eqb_neq in E.
    repeat split; auto; try discriminate; try contradiction.
    + intros H. injection H as H. now apply avError_EOF_iff.
    + intros H. f_equal. now apply avError_EOF_iff.
    + intros _ Hne. unfold avError.
      apply Z.eqb_neq in Hne. now rewrite Hne.
Qed.

(** The fields no method of the decoder stage assigns. *)
Lemma read_frame_static (audio : AudioStream.t) (s : Sys) :
  let a' := snd (fst (AudioStream.read_frame audio s)) in
  AudioStream.fmt a' = AudioStream.fmt audio /\
  AudioStream.ctx a' = AudioStream.ctx audio /\
  AudioStream.stream a' = AudioStream.stream audio /\
  AudioStream.orig_data a' = AudioStream.orig_data audio /\
  AudioStream.framesEOF a' = AudioStream.framesEOF audio.
Proof.
  unfold AudioStream.read_frame.
  destruct (negb (AudioStream.orig_data audio =? 0)).
  - destruct (C_av_free_packet _ s) as [p s1].
    destruct (C_av_read_frame _ _ s1) as [[r p'] s2].
    destruct (r =? 0); cbn; auto.
  - destruct (C_av_read_frame _ _ s) as [[r p'] s2].
    destruct (r =? 0); cbn; auto.
Qed.

Lemma decode_static (audio : AudioStream.t) (s : Sys) :
  let a' := snd (fst (AudioStream.decode audio s)) in
  AudioStream.fmt a' = AudioStream.fmt audio /\
  AudioStream.ctx a' = AudioStream.ctx audio /\
  AudioStream.stream a' = AudioStream.stream audio /\
  AudioStream.orig_data a' = AudioStream.orig_data audio /\
  AudioStream.framesEOF a' = AudioStream.framesEOF audio /\
  log (snd (AudioStream.decode audio s))
  = log s ++ [Call_avcodec_decode_audio4].
Proof.
  unfold AudioStream.decode.
  pose proof (C_decode_log (AudioStream.stream audio)
                (AudioStream.frame audio) (AudioStream.pkt audio) s) as Hlog.
  destruct (C_avcodec_decode_audio4 _ _ _ s) as [[[n g] fr] s1].
  destruct (n <? 0); cbn in *; auto 10.
Qed.

Lemma refill_static (audio : AudioStream.t) (s : Sys) :
  let a' := snd (fst (AudioStream.refill audio s)) in
  AudioStream.fmt a' = AudioStream.fmt audio /\
  AudioStream.ctx a' = AudioStream.ctx audio /\
  AudioStream.stream a' = AudioStream.stream audio /\
  AudioStream.orig_data a' = AudioStream.orig_data audio /\
  (AudioStream.framesEOF audio = true -> AudioStream.framesEOF a' = true).
Proof.
  unfold AudioStream.refill.
  destruct (_ && _); [|cbn; auto].
  pose proof (read_frame_static audio s) as H. cbv zeta in H.
  destruct (AudioStream.read_frame audio s) as [[e a1] s1]. cbn in H.
  destruct H as (H1 & H2 & H3 & H4 & H5).
  destruct e as [[|msg]|]; cbn; repeat split; auto; congruence.
Qed.

Lemma AudioStream_read_raw_static (audio : AudioStream.t) (s : Sys) :
  let a' := snd (fst (AudioStream.read_raw audio s)) in
  AudioStream.fmt a' = AudioStream.fmt audio /\
  AudioStream.ctx a' = AudioStream.ctx audio /\
  AudioStream.stream a' = AudioStream.stream audio /\
  AudioStream.orig_data a' = AudioStream.orig_data audio /\
  (AudioStream.framesEOF audio = true -> AudioStream.framesEOF a' = true).
Proof.
  unfold AudioStream.read_raw.
  pose proof (refill_static audio s) as H. cbv zeta in H.
  destruct (AudioStream.refill audio s) as [[e a1] s1]. cbn in H.
  destruct e as [e|]; [cbn; exact H|].
  pose proof (decode_static a1 s1) as H'. cbv zeta in H'.
  destruct (AudioStream.decode a1 s1) as [[[g e2] a2] s2]. cbn in H'.
  assert (Hgoal :
    AudioStream.fmt a2 = AudioStream.fmt audio /\
    AudioStream.ctx a2 = AudioStream.ctx audio /\
    AudioStream.stream a2 = AudioStream.stream audio /\
    AudioStream.orig_data a2 = AudioStream.orig_data audio /\
    (AudioStream.framesEOF audio = true -> AudioStream.framesEOF a2 = true)).
  { destruct H as (H1 & H2 & H3 & H4 & H5).
    destruct H' as (H1' & H2' & H3' & H4' & H5' & _).
    repeat split; try congruence. intros Hf. rewrite H5'. auto. }
  destruct e2; [exact Hgoal|].
  case (negb g); [case (AudioStream.framesEOF a2)|]; exact Hgoal.
Qed.

(** What one [read_raw] call asks of the C side, for a stage without a saved
    packet. *)
Lemma AudioStream_read_raw_calls (audio : AudioStream.t) (s : Sys) :
  AudioStream.orig_data audio = 0 ->
  let s' := snd (AudioStream.read_raw audio s) in
  (pkt_size (AudioStream.pkt audio) <> 0 \/
   AudioStream.framesEOF audio = true ->
   log s' = log s ++ [Call_avcodec_decode_audio4]) /\
  (pkt_size (AudioStream.pkt audio) = 0 ->
   AudioStream.framesEOF audio = false ->
   log s' = log s ++ [Call_av_read_frame] \/
   log s' = log s ++ [Call_av_read_frame; Call_avcodec_decode_audio4]).
Proof.
  intros Horig. cbv zeta. unfold AudioStream.read_raw, AudioStream.refill.
  split.
  - intros Hc.
    assert (E : (pkt_size (AudioStream.pkt audio) =? 0)
                && negb (AudioStream.framesEOF audio) = false).
    { destruct Hc as [Hc|Hc].
      - apply Z.eqb_neq in Hc. now rewrite Hc.
      - rewrite Hc. apply andb_false_r. }
    rewrite E.
    pose proof (decode_static audio s) as H. cbv zeta in H.
    destruct (AudioStream.decode audio s) as [[[g e2] a2] s2]. cbn in H.
    destruct H as (_ & _ & _ & _ & _ & Hlog).
    destruct e2; [exact Hlog|].
    case (negb g); [case (AudioStream.framesEOF a2)|]; exact Hlog.
  - intros Hsz Hf. rewrite Hsz, Hf. cbn [Z.eqb negb andb].
    pose proof (read_frame_maps_result_code audio s Horig) as H.
    pose proof (read_frame_static audio s) as Hst. cbv zeta in Hst.
    destruct (C_av_read_frame _ _ s) as [[r p] s1].
    destruct (AudioStream.read_frame audio s) as [[e a1] s'].
    destruct H as (_ & _ & Hlog & _). cbn in Hst.
    assert (Hdec : forall a : AudioStream.t,
      log (snd (let '(gotFrame, e2, audio0, s2) := AudioStream.decode a s' in
                match e2 with
                | Some e' => (mkRaw 0 0 (Some e'), audio0, s2)
                | None =>
                    if negb gotFrame then
                      if AudioStream.framesEOF audio0 then
                        (mkRaw 0 0 (Some io_EOF), audio0, s2)
                      else (mkRaw 0 0 None, audio0, s2)
                    else
                      (mkRaw (extended_data (AudioStream.frame audio0))
                         (nb_samples (AudioStream.frame audio0)) None,
                       audio0, s2)
                end))
      = log s ++ [Call_av_read_frame; Call_avcodec_decode_audio4]).
    { intros a. pose proof (decode_static a s') as H. cbv zeta in H.
      destruct (AudioStream.decode a s') as [[[g e2] a2] s2]. cbn in H.
      destruct H as (_ & _ & _ & _ & _ & Hl).
      assert (Hl' : log s2
                    = log s ++ [Call_av_read_frame;
                                Call_avcodec_decode_audio4]).
      { rewrite Hl, Hlog, <- app_assoc. reflexivity. }
      destruct e2; [exact Hl'|].
      case (negb g); [case (AudioStream.framesEOF a2)|]; exact Hl'. }
    destruct e as [[|msg]|].
    + right. apply Hdec.
    + left. exact Hlog.
    + right. apply Hdec.
Qed.

Lemma read_raw_without_refill (audio : AudioStream.t) (s : Sys) :
  pkt_size (AudioStream.pkt audio) <> 0 \/
  AudioStream.framesEOF audio = true ->
  AudioStream.refill audio s = (None, audio, s) /\
  log (snd (AudioStream.read_raw audio s))
  = log s ++ [Call_avcodec_decode_audio4].
Proof.
  intros Hc.
  assert (E : AudioStream.refill audio s = (None, audio, s)).
  { unfold AudioStream.refill. destruct Hc as [Hc|Hc].
    - apply Z.eqb_neq in Hc. now rewrite Hc.
    - rewrite Hc. now rewrite andb_false_r. }
  split; [exact E|].
  unfold AudioStream.read_raw. rewrite E.
  pose proof (decode_static audio s) as H. cbv zeta in H.
  destruct (AudioStream.decode audio s) as [[[g e2] a2] s2]. cbn in H.
  destruct H as (_ & _ & _ & _ & _ & Hlog).
  destruct e2; [exact Hlog|].
  case (negb g); [case (AudioStream.framesEOF a2)|]; exact Hlog.
Qed.

Lemma read_raw_log_shape (audio : AudioStream.t) (s : Sys) :
  AudioStream.orig_data audio = 0 ->
  exists l : list Call,
    log (snd (AudioStream.read_raw audio s)) = log s ++ l /\
    filter is_av_free_packet l = [].
Proof.
  intros Horig.
  pose proof (AudioStream_read_raw_calls audio s Horig) as [H1 H2].
  cbv zeta in H1, H2.
  destruct (Z.eq_dec (pkt_size (AudioStream.pkt audio)) 0) as [Hz|Hz].
  - destruct (AudioStream.framesEOF audio) eqn:Hf.
    + eexists. split; [apply H1; now right | reflexivity].
    + destruct (H2 Hz eq_refl) as [H|H];
        (eexists; split; [exact H | reflexivity]).
  - eexists. split; [apply H1; now left | reflexivity].
Qed.


Lemma framesEOF_latch_run (k : nat) :
  forall (audio : AudioStream.t) (s : Sys),
    AudioStream.framesEOF audio = true ->
    let '(_, audio', s') := read_raw_n k audio s in
    AudioStream.framesEOF audio' = true /\
    log s' = log s ++ repeat Call_avcodec_decode_audio4 k.
Proof.
  induction k as [|k IH]; intros audio s Hf; cbn [read_raw_n repeat].
  - split; [assumption | now rewrite app_nil_r].
  - change (@read_raw L AudioStream.t AudioStream.sample_stream audio s)
      with (AudioStream.read_raw audio s).
    pose proof (read_raw_without_refill audio s (or_intror Hf)) as [_ Hlog].
    pose proof (AudioStream_read_raw_static audio s) as Hst. cbv zeta in Hst.
    destruct (AudioStream.read_raw audio s) as [[r a1] s1]. cbn in Hlog, Hst.
    destruct Hst as (_ & _ & _ & _ & Hf1).
    specialize (IH a1 s1 (Hf1 Hf)).
    destruct (read_raw_n k a1 s1) as [[rs a2] s2].
    destruct IH as [Hf2 Hlog2]. split; [assumption|].
    rewrite Hlog2, Hlog, <- app_assoc. reflexivity.
Qed.

(** X4. [framesEOF] is a latch: once it is set it stays set, and [k]
    further [read_raw] calls make exactly [k] decoder calls and nothing
    else, whatever the decoder answers; the demuxer is never asked
    again. *)
Theorem framesEOF_is_a_latch (k : nat) (audio : AudioStream.t) (s : Sys) :
  AudioStream.framesEOF audio = true ->
  let '(_, audio', s') := read_raw_n k audio s in
  AudioStream.framesEOF audio' = true /\
  log s' = log s ++ repeat Call_avcodec_decode_audio4 k /\
  filter is_av_read_frame (log s') = filter is_av_read_frame (log s).
Proof.
  intros Hf. pose proof (framesEOF_latch_run k audio s Hf) as H.
  destruct (read_raw_n k audio s) as [[rs a'] s'].
  destruct H as [H1 H2]. split; [assumption|]. split; [assumption|].
  rewrite H2, filter_app.
  replace (filter is_av_read_frame (repeat Call_avcodec_decode_audio4 k))
    with (@nil Call); [apply app_nil_r|].
  clear. induction k; [reflexivity | assumption].
Qed.

Lemma never_frees_run (k : nat) :
  forall (audio : AudioStream.t) (s : Sys),
    AudioStream.orig_data audio = 0 ->
    let '(_, audio', s') := read_raw_n k audio s in
    AudioStream.orig_data audio' = 0 /\
    AudioStream.fmt audio' = AudioStream.fmt audio /\
    filter is_av_free_packet (log s') = filter is_av_free_packet (log s).
Proof.
  induction k as [|k IH]; intros audio s Ho; cbn [read_raw_n].
  - auto.
  - change (@read_raw L AudioStream.t AudioStream.sample_stream audio s)
      with (AudioStream.read_raw audio s).
    pose proof (read_raw_log_shape audio s Ho) as (l & Hl & Hfree).
    pose proof (AudioStream_read_raw_static audio s) as Hst. cbv zeta in Hst.
    destruct (AudioStream.read_raw audio s) as [[r a1] s1]. cbn in Hl, Hst.
    destruct Hst as (Hfmt & _ & _ & Ho1 & _).
    assert (Ho1' : AudioStream.orig_data a1 = 0) by congruence.
    specialize (IH a1 s1 Ho1').
    destruct (read_raw_n k a1 s1) as [[rs a2] s2].
    destruct IH as (H1 & H2 & H3). split; [assumption|].
    split; [congruence|].
    rewrite H3, Hl, filter_app, Hfree. apply app_nil_r.
Qed.

(** X5. A decoder stage that starts without a saved packet ([orig.data]
    nil, as [OpenAudioStream] leaves it) never gets one: across any number
    of [read_raw] calls [av_free_packet] is not called a single time, and
    the stage's format stays what it was. *)
Theorem AudioStream_never_frees_a_packet
    (k : nat) (audio : AudioStream.t) (s : Sys) :
  AudioStream.orig_data audio = 0 ->
  let '(_, audio', s') := read_raw_n k audio s in
  AudioStream.orig_data audio' = 0 /\
  Format audio' = Format audio /\
  filter is_av_free_packet (log s') = filter is_av_free_packet (log s).
Proof.
  intros Ho. pose proof (never_frees_run k audio s Ho) as H.
  destruct (read_raw_n k audio s) as [[rs a'] s']. exact H.
Qed.


(** X7. When the packet is used up and the demuxer fails with a code other
    than [AVERROR_EOF], [read_raw] returns that error at once: the decoder
    is not called and [framesEOF] stays unset. *)
Theorem demuxer_error_is_returned_at_once
    (audio : AudioStream.t) (s s1 : Sys) (r : Z) (p : AVPacket) :
  AudioStream.orig_data audio = 0 ->
  pkt_size (AudioStream.pkt audio) = 0 ->
  AudioStream.framesEOF audio = false ->
  C_av_read_frame (AudioStream.ctx audio) (AudioStream.pkt audio) s
  = (r, p, s1) ->
  r <> 0 -> r <> AVERROR_EOF ->
  AudioStream.read_raw audio s
  = (mkRaw 0 0 (Some (errors_New (av_strerror r))),
     AudioStream.with_pkt audio p, s1) /\
  AudioStream.framesEOF (AudioStream.with_pkt audio p) = false /\
  log s1 = log s ++ [Call_av_read_frame].
Proof.
  intros Ho Hsz Hf Hcall Hr0 Hreof.
  pose proof (C_av_read_frame_log (AudioStream.ctx audio)
                (AudioStream.pkt audio) s) as Hlog.
  rewrite Hcall in Hlog. cbn in Hlog.
  split; [|split; [exact Hf | exact Hlog]].
  unfold AudioStream.read_raw, AudioStream.refill, AudioStream.read_frame.
  rewrite Hsz, Hf, Ho. cbn [Z.eqb negb andb]. rewrite Hcall.
  apply Z.eqb_neq in Hr0. rewrite Hr0.
  unfold avError. apply Z.eqb_neq in Hreof. rewrite Hreof. reflexivity.
Qed.

(** X8. When the packet is used up and the demuxer reports [AVERROR_EOF],
    the call does not return [io.EOF] by itself: it sets [framesEOF] and
    goes on exactly like a call on the flagged stage, so the decoder is
    asked once more and decides the result. *)
Theorem demuxer_eof_sets_flag_and_drains
    (audio : AudioStream.t) (s s1 : Sys) (p : AVPacket) :
  AudioStream.orig_data audio = 0 ->
  pkt_size (AudioStream.pkt audio) = 0 ->
  AudioStream.framesEOF audio = false ->
  C_av_read_frame (AudioStream.ctx audio) (AudioStream.pkt audio) s
  = (AVERROR_EOF, p, s1) ->
  let flagged :=
    AudioStream.with_framesEOF (AudioStream.with_pkt audio p) true in
  AudioStream.read_raw audio s = AudioStream.read_raw flagged s1 /\
  AudioStream.framesEOF (snd (fst (AudioStream.read_raw audio s))) = true /\
  log (snd (AudioStream.read_raw audio s))
  = log s ++ [Call_av_read_frame; Call_avcodec_decode_audio4].
Proof.
  intros Ho Hsz Hf Hcall flagged.
  assert (Hflag : AudioStream.framesEOF flagged = true) by reflexivity.
  pose proof (read_raw_without_refill flagged s1 (or_intror Hflag))
    as [E Hlog].
  assert (Heq : AudioStream.read_raw audio s
                = AudioStream.read_raw flagged s1).
  { unfold AudioStream.read_raw at 1 2. rewrite E.
    unfold AudioStream.refill, AudioStream.read_frame.
    rewrite Hsz, Hf, Ho. cbn [Z.eqb negb andb]. rewrite Hcall.
    reflexivity. }
  split; [exact Heq|]. rewrite Heq. split.
  - pose proof (AudioStream_read_raw_static flagged s1) as Hst.
    cbv zeta in Hst. apply Hst. exact Hflag.
  - rewrite Hlog.
    pose proof (C_av_read_frame_log (AudioStream.ctx audio)
                  (AudioStream.pkt audio) s) as Hl.
    rewrite Hcall in Hl. cbn in Hl. rewrite Hl, <- app_assoc. reflexivity.
Qed.

End AudioStreamFurther.

(** ** The resample stage *)

Section ResamplerFurther.
Context {L : Libav} {F : Float64} {S : Type} {SS : SampleStream S}.

Lemma same_setup_refl (r : Resampler.t S) : same_setup r r.
Proof. unfold same_setup. auto. Qed.

Lemma same_setup_trans (r1 r2 r3 : Resampler.t S) :
  same_setup r1 r2 -> same_setup r2 r3 -> same_setup r1 r3.
Proof. unfold same_setup. intuition congruence. Qed.

Lemma checkBuf_static (resamp : Resampler.t S) (req : Z) (s : Sys) :
  let r' := snd (fst (Resampler.checkBuf resamp req s)) in
  same_setup resamp r' /\
  Resampler.source r' = Resampler.source resamp /\
  Resampler.sourceEOF r' = Resampler.sourceEOF resamp.
Proof.
  unfold Resampler.checkBuf, same_setup.
  destruct (Resampler.nf resamp <? req); [|cbn; auto 10].
  destruct (negb (Resampler.buf resamp =? 0)).
  - destruct (C_malloc _ _) as [p s1]. destruct (p =? 0); cbn; auto 10.
  - destruct (C_malloc _ _) as [p s1]. destruct (p =? 0); cbn; auto 10.
Qed.

Lemma Resampler_read_raw_static (resamp : Resampler.t S) (s : Sys) :
  let r' := snd (fst (Resampler.read_raw resamp s)) in
  same_setup resamp r' /\
  (Resampler.sourceEOF resamp = true -> Resampler.sourceEOF r' = true).
Proof.
  unfold Resampler.read_raw, Resampler.pull.
  destruct (Resampler.sourceEOF resamp) eqn:Heof; cbn [negb].
  - rewrite convert_result. cbn. split; [apply same_setup_refl | auto].
  - destruct (read_raw (Resampler.source resamp) s) as [[r src] s1].
    assert (Hcb : forall r0 : Resampler.t S,
      same_setup resamp r0 ->
      let out :=
        let '(e, resamp0, s2) :=
          Resampler.checkBuf r0
            (int32 (f64_ceil_mul (frames r) (Resampler.sratio r0))) s1 in
        match e with
        | Some e' =>
            (Resampler.Return (mkRaw 0 0 (Some e')), resamp0, s2)
        | None => (Resampler.Convert (planes r) (frames r), resamp0, s2)
        end in
      same_setup resamp
        (snd (fst (let '(p, resamp0, s2) := out in
                   match p with
                   | Resampler.Return r1 => (r1, resamp0, s2)
                   | Resampler.Convert in_ nf_in =>
                       Resampler.convert resamp0 in_ nf_in s2
                   end)))).
    { intros r0 H0. cbv zeta.
      pose proof (checkBuf_static r0
        (int32 (f64_ceil_mul (frames r) (Resampler.sratio r0))) s1) as H.
      cbv zeta in H.
      destruct (Resampler.checkBuf r0 _ s1) as [[e r2] s2]. cbn in H.
      destruct H as [H _].
      destruct e; cbn; [|rewrite convert_result; cbn];
        exact (same_setup_trans _ _ _ H0 H). }
    split; [|discriminate].
    destruct (err r) as [[|msg]|].
    + apply Hcb. unfold same_setup. cbn. auto.
    + cbn. unfold same_setup. cbn. auto.
    + destruct (frames r =? 0).
      * cbn. unfold same_setup. cbn. auto.
      * apply Hcb. unfold same_setup. cbn. auto.
Qed.

(** X9. A non-nil error never comes with data: whenever [read_raw] of the
    decoder stage or of the resample stage (over any source) returns an
    error, the plane table is nil and the frame count is zero.  For the
    resample stage a non-zero frame count comes with no error and with the
    stage's own plane table. *)
Theorem error_results_carry_no_data :
  (forall (audio : AudioStream.t) (s : Sys),
     let r := fst (fst (AudioStream.read_raw audio s)) in
     err r <> None -> planes r = 0 /\ frames r = 0) /\
  (forall (resamp : Resampler.t S) (s : Sys),
     let r := fst (fst (Resampler.read_raw resamp s)) in
     (err r <> None -> planes r = 0 /\ frames r = 0) /\
     (frames r <> 0 ->
      err r = None /\ planes r = Resampler.data resamp)).
Proof.
  split.
  - intros audio s. cbv zeta. unfold AudioStream.read_raw.
    destruct (AudioStream.refill audio s) as [[e a1] s1].
    destruct e; [cbn; auto|].
    destruct (AudioStream.decode a1 s1) as [[[g e2] a2] s2].
    destruct e2; [cbn; auto|].
    case (negb g); [case (AudioStream.framesEOF a2)|]; cbn; auto.
    all: intros H; contradiction H; reflexivity.
  - intros resamp s. cbv zeta.
    pose proof (Resampler_read_raw_static resamp s) as [Hst _].
    revert Hst. cbv zeta. unfold Resampler.read_raw.
    destruct (Resampler.pull resamp s) as [[p r1] s1] eqn:Hp.
    destruct p as [r|in_ nf_in].
    + cbn. intros _.
      assert (Hr : r = mkRaw 0 0 (err r) /\ True).
      { revert Hp. unfold Resampler.pull.
        destruct (negb (Resampler.sourceEOF resamp)); [|discriminate].
        destruct (read_raw (Resampler.source resamp) s) as [[rs src] s0].
        destruct (err rs) as [[|msg]|].
        - destruct (Resampler.checkBuf _ _ s0) as [[e r2] s2].
          destruct e; intros H; inversion H; subst; cbn; auto.
        - intros H; inversion H; subst; cbn; auto.
        - destruct (frames rs =? 0).
          + intros H; inversion H; subst; cbn; auto.
          + destruct (Resampler.checkBuf _ _ s0) as [[e r2] s2].
            destruct e; intros H; inversion H; subst; cbn; auto. }
      destruct Hr as [Hr _]. rewrite Hr. cbn. split; [auto|].
      intros H. contradiction H. reflexivity.
    + rewrite convert_result. cbn [fst snd]. intros Hst.
      destruct Hst as (_ & _ & Hdata & _).
      destruct (fst (C_swr_convert _ _ _ in_ nf_in s1) =? 0) eqn:E; cbn.
      * split; [auto|]. intros H. contradiction H. reflexivity.
      * split; [intros H; contradiction H; reflexivity|].
        intros _. split; [reflexivity | exact Hdata].
Qed.



(** X11. An error of the source other than [io.EOF] is passed on as it is,
    with nil planes and zero frames: the stage calls neither the allocator
    nor the converter, and apart from the source's new state nothing in it
    changes; in particular [sourceEOF] stays unset. *)
Theorem source_error_is_passed_on
    (resamp : Resampler.t S) (s s1 : Sys) (rs : RawResult) (src : S)
    (msg : string) :
  Resampler.sourceEOF resamp = false ->
  read_raw (Resampler.source resamp) s = (rs, src, s1) ->
  err rs = Some (errors_New msg) ->
  Resampler.read_raw resamp s
  = (mkRaw 0 0 (Some (errors_New msg)),
     Resampler.with_source resamp src, s1).
Proof.
  intros Heof Hsrc Herr.
  unfold Resampler.read_raw, Resampler.pull. rewrite Heof. cbn [negb].
  rewrite Hsrc, Herr. reflexivity.
Qed.


Lemma C_malloc_log (n : Z) (s : Sys) :
  log (snd (C_malloc n s)) = log s ++ [Call_malloc n].
Proof.
  unfold C_malloc. destruct (malloc _ _) as [p w]. reflexivity.
Qed.

Lemma C_malloc_uint64 (n : Z) (s : Sys) :
  uint64 (fst (C_malloc n s)) = fst (C_malloc n s).
Proof.
  unfold C_malloc. destruct (malloc _ _) as [p w]. cbn.
  unfold uint64. apply Z.mod_mod. lia.
Qed.

Lemma uint64_int64 (x : Z) : uint64 (int64 x) = uint64 x.
Proof.
  unfold uint64, int64.
  rewrite Zminus_mod_idemp_l. f_equal. lia.
Qed.

Lemma uint64_add_int64 (a x : Z) :
  uint64 (a + uint64 (int64 x)) = uint64 (a + x).
Proof. now rewrite uint64_int64, uint64_add_idemp. Qed.

Lemma uint64_id (x : Z) : 0 <= x < 2 ^ 64 -> uint64 x = x.
Proof. intros H. unfold uint64. now apply Z.mod_small. Qed.

(** X13. [checkBuf] leaves the stage and the C side alone when the
    allocated capacity suffices.  Otherwise it frees the old block, if there
    is one, and asks for exactly one new block; on success the capacity is
    the requested one and the block is not nil, on failure the capacity is
    unchanged and the stage is left without a block.  Without overflow the
    block holds capacity x bytes per sample x channels bytes. *)
Theorem checkBuf_reallocates_only_to_grow
    (resamp : Resampler.t S) (req : Z) (s : Sys) :
  let b :=
    int32 (av_get_bytes_per_sample (Storage (Resampler.fmt resamp))) in
  let channels := NumChannels (Resampler.fmt resamp) in
  let size := uint64 (int64 (int32 (req * b) * channels)) in
  (req <= Resampler.nf resamp ->
   Resampler.checkBuf resamp req s = (None, resamp, s)) /\
  (Resampler.nf resamp < req ->
   let '(e, resamp', s') := Resampler.checkBuf resamp req s in
   log s' = log s
            ++ (if Resampler.buf resamp =? 0 then []
                else [Call_free (Resampler.buf resamp)])
            ++ [Call_malloc size] /\
   (e = None /\ Resampler.nf resamp' = req /\ Resampler.buf resamp' <> 0 \/
    e = Some Resampler.alloc_error /\
    Resampler.nf resamp' = Resampler.nf resamp /\
    Resampler.buf resamp' = 0)) /\
  (0 <= b -> 0 <= req * b < 2 ^ 31 -> 0 <= channels ->
   size = req * b * channels).
Proof.
  intros b channels size. split; [|split].
  - intros Hle. unfold Resampler.checkBuf.
    apply Z.ltb_ge in Hle. now rewrite Hle.
  - intros Hlt. unfold Resampler.checkBuf.
    apply Z.ltb_lt in Hlt. rewrite Hlt. fold b. fold channels. fold size.
    destruct (Resampler.buf resamp =? 0) eqn:Hb; cbn [negb].
    + pose proof (C_malloc_log size s) as Hlog.
      destruct (C_malloc size s) as [p s1]. cbn in Hlog |- *.
      destruct (p =? 0) eqn:Hp; cbn.
      * apply Z.eqb_eq in Hp. split; [exact Hlog | right; auto].
      * apply Z.eqb_neq in Hp. split; [exact Hlog | left; auto].
    + pose proof (C_malloc_log size (C_free (Resampler.buf resamp) s))
        as Hlog.
      destruct (C_malloc size _) as [p s1]. cbn in Hlog |- *.
      rewrite <- app_assoc in Hlog.
      destruct (p =? 0) eqn:Hp; cbn.
      * apply Z.eqb_eq in Hp. split; [exact Hlog | right; auto].
      * apply Z.eqb_neq in Hp. split; [exact Hlog | left; auto].
  - intros Hb Hreq Hch. unfold size.
    assert (Hc : channels < 2 ^ 31).
    { pose proof (int32_range
        (av_get_channel_layout_nb_channels
           (uint64 (Layout (Resampler.fmt resamp))))) as H.
      unfold in_int32 in H. unfold channels, NumChannels. lia. }
    rewrite (int32_id (req * b)) by (unfold in_int32; lia).
    rewrite int64_id by (unfold in_int64; nia).
    apply uint64_id. nia.
Qed.

Lemma set_planes_load (Hmem : memory_laws) (data_0 buf_0 bpc : Z) (k : nat) :
  forall (i0 : Z) (w : World),
    0 <= i0 -> 0 <= data_0 ->
    data_0 + (i0 + Z.of_nat k) * sizeOfPtr <= 2 ^ 64 ->
    let w' := Resampler.set_planes k i0 data_0 buf_0 bpc w in
    (forall j : Z,
       i0 <= j < i0 + Z.of_nat k ->
       load_ptr w' (data_0 + j * sizeOfPtr) = uint64 (buf_0 + j * bpc)) /\
    (forall a : Z,
       (forall j : Z,
          i0 <= j < i0 + Z.of_nat k -> a <> data_0 + j * sizeOfPtr) ->
       load_ptr w' a = load_ptr w a).
Proof.
  destruct Hmem as [Hsame Hother].
  induction k as [|k IH]; intros i0 w Hi Hd Hend.
  - cbn. split; [intros j Hj; lia | auto].
  - cbn [Resampler.set_planes]. cbv zeta.
    rewrite !uint64_add_int64.
    assert (Ha : uint64 (data_0 + i0 * sizeOfPtr) = data_0 + i0 * sizeOfPtr).
    { apply uint64_id. unfold sizeOfPtr in *. lia. }
    rewrite Ha.
    specialize (IH (i0 + 1)
      (store_ptr w (data_0 + i0 * sizeOfPtr) (uint64 (buf_0 + i0 * bpc)))).
    destruct IH as [IH1 IH2]; [lia | lia | lia |].
    split.
    + intros j Hj. destruct (Z.eq_dec j i0) as [->|Hne].
      * rewrite IH2; [apply Hsame|].
        intros j' Hj'. unfold sizeOfPtr. lia.
      * apply IH1. lia.
    + intros a Hna. rewrite IH2.
      * apply Hother. intros Heq. apply (Hna i0); [lia | now symmetry].
      * intros j Hj. apply Hna. lia.
Qed.

(** X14. When [checkBuf] has allocated a new block, the stage's plane table
    points into it plane after plane: provided memory reads back what is
    stored and the table lies in the address space, entry [i] of the table
    holds the block's address plus [i] times the bytes per plane, for every
    plane [i] of the stage.  Entry 0 is the block itself. *)
Theorem checkBuf_lays_out_planes
    (resamp : Resampler.t S) (req : Z) (s : Sys) :
  memory_laws ->
  Resampler.nf resamp < req ->
  0 <= Resampler.data resamp ->
  Resampler.data resamp + Resampler.nplanes resamp * sizeOfPtr <= 2 ^ 64 ->
  let bpc :=
    int32 (req * int32 (av_get_bytes_per_sample
                          (Storage (Resampler.fmt resamp)))) in
  let '(e, resamp', s') := Resampler.checkBuf resamp req s in
  e = None ->
  (forall i : Z,
     0 <= i < Resampler.nplanes resamp ->
     load_ptr (world s') (Resampler.data resamp + i * sizeOfPtr)
     = uint64 (Resampler.buf resamp' + i * bpc)) /\
  (0 < Resampler.nplanes resamp ->
   load_ptr (world s') (Resampler.data resamp) = Resampler.buf resamp').
Proof.
  intros Hmem Hlt Hd Hend bpc.
  unfold Resampler.checkBuf. apply Z.ltb_lt in Hlt. rewrite Hlt.
  fold bpc.
  assert (Hgen : forall (r0 : Resampler.t S) (s0 : Sys),
    Resampler.data r0 = Resampler.data resamp ->
    Resampler.nplanes r0 = Resampler.nplanes resamp ->
    let '(e, resamp', s') :=
      let '(p, s1) :=
        C_malloc (uint64 (int64 (bpc * NumChannels (Resampler.fmt r0)))) s0 in
      let resamp0 := Resampler.with_buf r0 p in
      if p =? 0 then (Some Resampler.alloc_error, resamp0, s1)
      else
        (None, Resampler.with_nf resamp0 req,
         mkSys (Resampler.set_planes (Z.to_nat (Resampler.nplanes resamp0)) 0
                  (Resampler.data resamp0) (Resampler.buf resamp0) bpc
                  (world s1)) (log s1)) in
    e = None ->
    (forall i : Z,
       0 <= i < Resampler.nplanes resamp ->
       load_ptr (world s') (Resampler.data resamp + i * sizeOfPtr)
       = uint64 (Resampler.buf resamp' + i * bpc)) /\
    (0 < Resampler.nplanes resamp ->
     load_ptr (world s') (Resampler.data resamp) = Resampler.buf resamp')).
  { intros r0 s0 Hd0 Hn0.
    pose proof (C_malloc_uint64
      (uint64 (int64 (bpc * NumChannels (Resampler.fmt r0)))) s0) as Hp64.
    destruct (C_malloc _ s0) as [p s1]. cbn [fst] in Hp64.
    destruct (p =? 0); [discriminate|]. intros _.
    cbn [Resampler.with_buf Resampler.with_nf Resampler.nplanes
         Resampler.data Resampler.buf world].
    rewrite Hd0, Hn0.
    destruct (Z_le_gt_dec (Resampler.nplanes resamp) 0) as [Hnp|Hnp].
    - split; intros; lia.
    - pose proof (set_planes_load Hmem (Resampler.data resamp) p bpc
        (Z.to_nat (Resampler.nplanes resamp)) 0 (world s1)) as H.
      rewrite Z2Nat.id in H by lia.
      destruct H as [H _]; [lia | lia | lia |].
      split.
      + intros i Hi. apply H. lia.
      + intros _. specialize (H 0 ltac:(lia)).
        rewrite Z.mul_0_l, !Z.add_0_r in H. rewrite H. exact Hp64. }
  destruct (negb (Resampler.buf resamp =? 0)).
  - apply (Hgen (Resampler.with_buf resamp 0)); reflexivity.
  - apply (Hgen resamp); reflexivity.
Qed.

End ResamplerFurther.

(** ** Building a pipeline *)

Section PipelineFurther.
Context {L : Libav} {F : Float64} {S : Type} {SS : SampleStream S}.

Lemma Resample_stream_format
    (source : S) (to : AudioFormat) (s s' : Sys) (x : Stream S)
    (e : option error) :
  Resample source to s = (Some x, e, s') -> Format x = to.
Proof.
  unfold Resample.
  destruct (Equal (Format source) to) eqn:Heq.
  - apply Equal_eq in Heq. intros H. injection H as <- _ _. exact Heq.
  - destruct (C_swr_alloc_set_opts _ _ _ _ _ _ s) as [c s1].
    destruct (c =? 0); [discriminate|].
    destruct (C_swr_init c s1) as [r s2].
    destruct (r <? 0); [discriminate|].
    destruct (C_malloc _ s2) as [d s3].
    destruct (d =? 0); [discriminate|].
    intros H. injection H as <- _ _. reflexivity.
Qed.

(** X15. [Resample] returns a stream or an error, never both and never
    neither.  A stream it returns has the requested format: it is the
    source itself, or a fresh resample stage around the source with nothing
    allocated for output yet ([nf] zero, no block), [sourceEOF] unset, a
    context and a plane table that are not nil, and as many planes as the
    source's format has. *)
Theorem Resample_returns_stream_in_requested_format
    (source : S) (to : AudioFormat) (s : Sys) :
  let '(st, e, _) := Resample source to s in
  (st = None <-> e <> None) /\
  (forall x : Stream S,
     st = Some x ->
     Format x = to /\
     (x = Direct source \/
      exists resamp : Resampler.t S,
        x = Resampled resamp /\
        Resampler.source resamp = source /\
        Resampler.sourceEOF resamp = false /\
        Resampler.nf resamp = 0 /\
        Resampler.buf resamp = 0 /\
        Resampler.ctx resamp <> 0 /\
        Resampler.data resamp <> 0 /\
        Resampler.nplanes resamp = NumPlanes (Format source))).
Proof.
  unfold Resample.
  destruct (Equal (Format source) to) eqn:Heq.
  - apply Equal_eq in Heq. split.
    + split; [discriminate | intros H; contradiction H; reflexivity].
    + intros x Hx. injection Hx as <-. cbn. auto.
  - destruct (C_swr_alloc_set_opts _ _ _ _ _ _ s) as [c s1].
    destruct (c =? 0) eqn:Hc.
    { split; [split; [discriminate | reflexivity] | discriminate]. }
    destruct (C_swr_init c s1) as [r s2].
    destruct (r <? 0).
    { split; [split; [discriminate | reflexivity] | discriminate]. }
    destruct (C_malloc _ s2) as [d s3].
    destruct (d =? 0) eqn:Hd.
    { split; [split; [discriminate | reflexivity] | discriminate]. }
    apply Z.eqb_neq in Hc, Hd. split.
    + split; [discriminate | intros H; contradiction H; reflexivity].
    + intros x Hx. injection Hx as <-. cbn. split; [reflexivity|].
      right. eexists. split; [reflexivity|]. cbn. auto 10.
Qed.


(** X16. [NewPackedS16Stream] accepts a source exactly when its storage is
    [PackedS16s]; the reader it returns wraps that very source.  So on a
    stream returned by [Resample] it succeeds exactly when the requested
    format is packed signed 16 bit. *)
Theorem NewPackedS16Stream_accepts_exactly_PackedS16s (src : S) :
  (Storage (Format src) = PackedS16s ->
   PackedS16Stream.NewPackedS16Stream src
   = (Some (PackedS16Stream.mk src), None)) /\
  (Storage (Format src) <> PackedS16s ->
   PackedS16Stream.NewPackedS16Stream src
   = (None, Some (errors_New "sample format mismatch"))) /\
  (forall (to : AudioFormat) (s s' : Sys) (x : Stream S),
     Resample src to s = (Some x, None, s') ->
     (Storage to = PackedS16s ->
      PackedS16Stream.NewPackedS16Stream x
      = (Some (PackedS16Stream.mk x), None)) /\
     (Storage to <> PackedS16s ->
      fst (PackedS16Stream.NewPackedS16Stream x) = None)).
Proof.
  assert (Hnew : forall (T : Type) (ST : SampleStream T) (t : T),
    (Storage (Format t) = PackedS16s ->
     PackedS16Stream.NewPackedS16Stream t
     = (Some (PackedS16Stream.mk t), None)) /\
    (Storage (Format t) <> PackedS16s ->
     PackedS16Stream.NewPackedS16Stream t
     = (None, Some (errors_New "sample format mismatch")))).
  { intros T ST t. unfold PackedS16Stream.NewPackedS16Stream. split.
    - intros ->. reflexivity.
    - intros H. apply Z.eqb_neq in H. now rewrite H. }
  split; [apply Hnew|]. split; [apply Hnew|].
  intros to s s' x Hres.
  pose proof (Resample_stream_format src to s s' x None Hres) as Hfmt.
  destruct (Hnew (Stream S) _ x) as [H1 H2]. rewrite Hfmt in H1, H2.
  split; [exact H1|]. intros Hne. now rewrite (H2 Hne).
Qed.

End PipelineFurther.

(** ** Formats along the pipeline *)

Section FormatFurther.
Context {L : Libav} {F : Float64} {S : Type} {SS : SampleStream S}.

Lemma AudioStream_format_stable : format_stable AudioStream.t.
Proof.
  intros audio s.
  pose proof (AudioStream_read_raw_static audio s) as H. cbv zeta in H.
  apply H.
Qed.

Lemma Resampler_format_stable : format_stable (Resampler.t S).
Proof.
  intros resamp s.
  pose proof (Resampler_read_raw_static resamp s) as [H _].
  cbv zeta in H. apply H.
Qed.

(** X17. No [read_raw] call changes a stream's format: not on the decoder
    stage, not on a resample stage (over any source), and not on a stream
    returned by [Resample] if the source's own [read_raw] keeps the format.
    Over such a source a typed reader therefore keeps, after every [Read],
    the source format it was built for. *)
Theorem read_raw_keeps_format :
  format_stable AudioStream.t /\
  format_stable (Resampler.t S) /\
  (format_stable S -> format_stable (Stream S)) /\
  (format_stable S ->
   forall (stream : PackedS16Stream.t S) (s : Sys),
     let '(_, _, stream', _) := PackedS16Stream.Read stream s in
     Format (PackedS16Stream.source stream')
     = Format (PackedS16Stream.source stream)).
Proof.
  split; [apply AudioStream_format_stable|].
  split; [apply Resampler_format_stable|]. split.
  - intros HS [src|resamp] s.
    + specialize (HS src s). cbn.
      destruct (read_raw src s) as [[r src'] s']. exact HS.
    + pose proof (Resampler_format_stable resamp s) as H. cbn in H |- *.
      destruct (Resampler.read_raw resamp s) as [[r resamp'] s']. exact H.
  - intros HS stream s. specialize (HS (PackedS16Stream.source stream) s).
    unfold PackedS16Stream.Read.
    destruct (read_raw (PackedS16Stream.source stream) s) as [[r src] s1].
    cbn in HS.
    destruct (err r); [exact HS|]. destruct (planes r =? 0); exact HS.
Qed.

End FormatFurther.

(** ** Opening and closing *)

Section LifecycleFurther.
Context {L : Libav} {O : LibavLifecycle}.

(** X18. [stream] returns the pointer stored at position [index] of the
    context's stream array when [index] is below the stream count and below
    the 1024 elements of the array type laid over it; for every other index
    it panics. *)
Theorem stream_checks_index (format : FormatContext.t) (index : Z) (s : Sys) :
  let n := uint32 (nb_streams (world s) (FormatContext.ctx format)) in
  (0 <= index < n -> index < 1024 ->
   FormatContext.stream format index s
   = Done (load_ptr (world s)
             (uint64 (streams (world s) (FormatContext.ctx format)
                      + index * sizeOfPtr)))) /\
  (index < 0 \/ n <= index \/ 1024 <= index ->
   FormatContext.stream format index s = Panic).
Proof.
  intros n. unfold FormatContext.stream, FormatContext.streams_array_len.
  fold n. split.
  - intros Hi Hlim.
    assert (Hu : uint32 index = index)
      by (unfold uint32; apply Z.mod_small; lia).
    rewrite Hu.
    destruct (index <? 0) eqn:E1; [apply Z.ltb_lt in E1; lia|].
    destruct (n <=? index) eqn:E2; [apply Z.leb_le in E2; lia|].
    destruct (2 ^ 10 <=? index) eqn:E3; [apply Z.leb_le in E3; lia|].
    reflexivity.
  - intros Hc.
    destruct (index <? 0) eqn:E1; [reflexivity|]. apply Z.ltb_ge in E1.
    destruct (n <=? uint32 index) eqn:E2; [reflexivity|].
    apply Z.leb_gt in E2. cbn [orb].
    destruct (2 ^ 10 <=? index) eqn:E3; [reflexivity|].
    apply Z.leb_gt in E3.
    assert (Hu : uint32 index = index)
      by (unfold uint32; apply Z.mod_small; lia).
    lia.
Qed.

(** X19. When [OpenAudioStream] returns, it returns a stream or an error,
    never both and never neither.  A stream it returns is fresh: the packet
    is empty, [framesEOF] is unset, there is no saved packet, and the
    storage and rate are the codec context's values cut to int8 and C.int.
    Its first [read_raw] call therefore starts by asking the demuxer for a
    packet, and no later call ever frees one. *)
Theorem OpenAudioStream_returns_fresh_stream
    (format : FormatContext.t) (s : Sys) :
  forall (st : option AudioStream.t) (e : option error) (s' : Sys),
    FormatContext.OpenAudioStream format s = Done (st, e, s') ->
    (st = None <-> e <> None) /\
    (forall audio : AudioStream.t,
       st = Some audio ->
       AudioStream.pkt audio = mkPacket 0 0 /\
       AudioStream.framesEOF audio = false /\
       AudioStream.orig_data audio = 0 /\
       AudioStream.ctx audio = FormatContext.ctx format /\
       - 2 ^ 7 <= Storage (Format audio) < 2 ^ 7 /\
       in_int32 (Rate (Format audio)) /\
       (exists l : list Call,
          log (snd (AudioStream.read_raw audio s'))
          = log s' ++ Call_av_read_frame :: l) /\
       (forall k : nat,
          filter is_av_free_packet
            (log (snd (read_raw_n k audio s')))
          = filter is_av_free_packet (log s'))).
Proof.
  intros st e s'. unfold FormatContext.OpenAudioStream.
  unfold FormatContext.findStreamInfo.
  destruct (avformat_find_stream_info _ _) as [r0 w0].
  destruct (int32 r0 <? 0).
  { intros H. injection H as <- <- <-.
    split; [split; [discriminate | reflexivity] | discriminate]. }
  cbn [world log].
  destruct (av_find_best_stream w0 _) as [i w1].
  destruct (int32 i <? 0).
  { intros H. injection H as <- <- <-.
    split; [split; [discriminate | reflexivity] | discriminate]. }
  destruct (FormatContext.stream format (int32 i) _) as [p|]; [|discriminate].
  cbn [world log].
  destruct (uint64 (avcodec_find_decoder w1 _) =? 0).
  { intros H. injection H as <- <- <-.
    split; [split; [discriminate | reflexivity] | discriminate]. }
  destruct (avcodec_open2 w1 _ _) as [r2 w2].
  destruct (int32 r2 <? 0).
  { intros H. injection H as <- <- <-.
    split; [split; [discriminate | reflexivity] | discriminate]. }
  cbn [world log].
  destruct (av_frame_alloc w2) as [[fp fr] w3].
  destruct (uint64 fp =? 0).
  { intros H. injection H as <- <- <-.
    split; [split; [discriminate | reflexivity] | discriminate]. }
  cbn [world log].
  destruct (av_init_packet w3 _) as [pk w4].
  intros H. injection H as <- <- <-.
  split; [split; [discriminate | intros H; contradiction H; reflexivity]|].
  intros audio Ha. injection Ha as <-.
  cbn [AudioStream.pkt AudioStream.framesEOF AudioStream.orig_data
       AudioStream.ctx].
  repeat (split; [reflexivity|]).
  split.
  { cbn. unfold int8.
    pose proof (Z.mod_pos_bound (sample_fmt w3 (stream_codec w1 p) + 2 ^ 7)
                  (2 ^ 8) ltac:(lia)). lia. }
  split; [cbn; apply int32_range|].
  split.
  - match goal with
    | |- context [AudioStream.read_raw ?a ?t] =>
        pose proof (AudioStream_read_raw_calls a t eq_refl) as [_ Hc]
    end.
    cbv zeta in Hc. destruct (Hc eq_refl eq_refl) as [Hl|Hl];
      rewrite Hl; eexists; reflexivity.
  - intros k.
    match goal with
    | |- context [read_raw_n k ?a ?t] =>
        pose proof (never_frees_run k a t eq_refl) as Hk;
        destruct (read_raw_n k a t) as [[rs a'] t']
    end.
    cbn. apply Hk.
Qed.

End LifecycleFurther.

Section CloseFurther.
Context {L : Libav} {O : LibavLifecycle} {F : Float64}
        {S : Type} {CS : Closer S}.

(** X20. Closing a resample stage that holds a converter context frees the
    plane table, frees the output block if there is one, clears the context
    and closes the wrapped source.  A second [Close] frees nothing: it only
    closes the wrapped source once more. *)
Theorem Resampler_Close_frees_once (resamp : Resampler.t S) (s : Sys) :
  Resampler.ctx resamp <> 0 ->
  let '(closed, s1) := Resampler_Close resamp s in
  Resampler.ctx closed = 0 /\
  (exists s0 : Sys,
     log s0 = log s
              ++ [Call_free (Resampler.data resamp)]
              ++ (if Resampler.buf resamp =? 0 then []
                  else [Call_free (Resampler.buf resamp)]) /\
     (Resampler.source closed, s1) = Close (Resampler.source resamp) s0) /\
  Resampler_Close closed s1
  = (Resampler.with_source closed
       (fst (Close (Resampler.source closed) s1)),
     snd (Close (Resampler.source closed) s1)).
Proof.
  intros Hctx. unfold Resampler_Close at 1.
  apply Z.eqb_neq in Hctx. rewrite Hctx. cbn [negb].
  set (s0 := if negb (Resampler.buf resamp =? 0) then _ else _).
  cbn [Resampler.source Resampler_with_ctx].
  destruct (Close (Resampler.source resamp) s0) as [src s1] eqn:Hclose.
  split; [reflexivity|]. split.
  - exists s0. split; [|now rewrite Hclose]. unfold s0.
    destruct (Resampler.buf resamp =? 0); cbn; [reflexivity|].
    now rewrite <- app_assoc.
  - unfold Resampler_Close. cbn.
    destruct (Close src s1) as [src2 s2]. reflexivity.
Qed.

End CloseFurther.

(** ** The earlier draft (resamp.go) *)

Section DraftFurther.
Context {L : Libav} {G : GoRuntime} {F : Float64}
        {S : Type} {SS : SampleStream S}.

(** X21. The draft has no early return for an empty pull: when the source
    yields zero frames and no error and the capacity needs no growth, the
    draft's [read_raw] goes on to the converter with an input count of
    zero, and reports [io.EOF] if the converter then emits nothing,
    although [sourceEOF] is unset. *)
Theorem Draft_empty_pull_reaches_converter
    (resamp : Draft.t S) (s s1 : Sys) (rs : RawResult) (src : S) :
  Draft.sourceEOF resamp = false ->
  read_raw (Draft.source resamp) s = (rs, src, s1) ->
  err rs = None ->
  frames rs = 0 ->
  int32 (f64_ceil_mul 0 (Draft.sratio resamp)) <= Draft.nf resamp ->
  let pulled := Draft.with_source resamp src in
  let out :=
    C_swr_convert (Draft.ctx resamp) (Draft.data_ptr resamp)
      (Draft.nf resamp) (planes rs) 0 s1 in
  Draft.read_raw resamp s
  = Done (if fst out =? 0 then mkRaw 0 0 (Some io_EOF)
          else mkRaw (Draft.data_ptr resamp) (fst out) None,
          pulled, snd out) /\
  Draft.sourceEOF pulled = false /\
  log (snd out) = log s1 ++ [Call_swr_convert (Draft.nf resamp) 0].
Proof.
  intros Heof Hsrc Herr Hnf Hcap pulled out.
  split; [|split; [exact Heof | apply C_swr_convert_log]].
  unfold Draft.read_raw, Draft.pull. rewrite Heof. cbn [negb].
  rewrite Hsrc, Herr, Hnf.
  unfold Draft.checkBuf.
  cbn [Draft.nf Draft.with_source Draft.sratio].
  apply Z.ltb_ge in Hcap. rewrite Hcap.
  unfold Draft.convert.
  cbn [Draft.ctx Draft.data_ptr Draft.nf Draft.with_source].
  fold out. destruct out as [nfout s2]. cbn [fst snd].
  destruct (nfout =? 0); reflexivity.
Qed.

Lemma alloc_planes_result (nbytes : Z) (l : list Z) :
  forall s : Sys,
    let '(ok, l', _) := Draft.alloc_planes l nbytes s in
    List.length l' = List.length l /\
    (ok = true -> Forall (fun p => p <> 0) l') /\
    (ok = false -> In 0 l').
Proof.
  induction l as [|x rest IH]; intros s; cbn [Draft.alloc_planes].
  - split; [reflexivity|]. split; [constructor | discriminate].
  - destruct (C_malloc nbytes s) as [p s1].
    destruct (p =? 0) eqn:Hp.
    + cbn. split; [reflexivity|]. split; [discriminate | auto].
    + specialize (IH s1).
      destruct (Draft.alloc_planes rest nbytes s1) as [[ok l'] s2].
      destruct IH as (Hlen & Hok & Hfail). apply Z.eqb_neq in Hp.
      cbn. split; [now rewrite Hlen|]. split.
      * intros H. constructor; auto.
      * intros H. right. auto.
Qed.

Lemma free_planes_length (l : list Z) :
  forall s : Sys, List.length (fst (Draft.free_planes l s)) = List.length l.
Proof.
  induction l as [|x rest IH]; intros s; cbn [Draft.free_planes].
  - reflexivity.
  - specialize (IH (C_free x s)).
    destruct (Draft.free_planes rest (C_free x s)) as [l' s'].
    cbn in *. now rewrite IH.
Qed.

(** X22. The draft's [checkBuf] panics only when it has to make the plane
    slice for a negative plane count.  When it grows the capacity, the
    slice has one entry per plane of the target format on first use and
    keeps its length afterwards; on success every entry is a block that is
    not nil and the capacity is the requested one, on failure the capacity
    is unchanged and the slice holds a nil entry. *)
Theorem Draft_checkBuf_allocates_every_plane
    (resamp : Draft.t S) (req : Z) (s : Sys) :
  Draft.nf resamp < req ->
  match Draft.checkBuf resamp req s with
  | Panic =>
      Draft.nf resamp = 0 /\ NumPlanes (Draft.fmt resamp) < 0
  | Done (e, resamp', _) =>
      List.length (Draft.data resamp')
      = (if Draft.nf resamp =? 0
         then Z.to_nat (NumPlanes (Draft.fmt resamp))
         else List.length (Draft.data resamp)) /\
      (e = None /\ Draft.nf resamp' = req /\
       Forall (fun p => p <> 0) (Draft.data resamp') \/
       e = Some Draft.alloc_error /\
       Draft.nf resamp' = Draft.nf resamp /\
       In 0 (Draft.data resamp'))
  end.
Proof.
  intros Hlt. unfold Draft.checkBuf.
  apply Z.ltb_lt in Hlt. rewrite Hlt.
  set (nbytes := uint64 _).
  destruct (Draft.nf resamp =? 0) eqn:Hz.
  - apply Z.eqb_eq in Hz.
    destruct (NumPlanes (Draft.fmt resamp) <? 0) eqn:Hn.
    + apply Z.ltb_lt in Hn. auto.
    + destruct (makeslice _ _) as [p w].
      cbn [Draft.data Draft.with_data Draft.data_ptr].
      pose proof (alloc_planes_result nbytes
        (repeat 0 (Z.to_nat (NumPlanes (Draft.fmt resamp))))
        (mkSys w (log s))) as H.
      destruct (Draft.alloc_planes _ nbytes _) as [[ok l] s2].
      destruct H as (Hlen & Hok & Hfail). rewrite repeat_length in Hlen.
      destruct ok; cbn; (split; [exact Hlen|]); [left | right]; auto.
  - destruct (Draft.free_planes (Draft.data resamp) s) as [l0 s1] eqn:Hfree.
    cbn [Draft.data Draft.with_data Draft.data_ptr].
    pose proof (free_planes_length (Draft.data resamp) s) as Hl0.
    rewrite Hfree in Hl0. cbn in Hl0.
    pose proof (alloc_planes_result nbytes l0 s1) as H.
    destruct (Draft.alloc_planes l0 nbytes s1) as [[ok l] s2].
    destruct H as (Hlen & Hok & Hfail).
    destruct ok; cbn; (split; [congruence|]); [left | right]; auto.
Qed.

End DraftFurther.

(** * Concrete runs for the further properties *)

Lemma read_frame_maps_result_code_witness :
  fst (fst (AudioStream.read_frame (Script.audio0 Script.fmt_48k_flt)
              (Script.sys_of Script.world_io_error)))
  = Some (errors_New "libav error").
Proof.
  pose proof (@read_frame_maps_result_code Script.libav
    (Script.audio0 Script.fmt_48k_flt)
    (Script.sys_of Script.world_io_error) eq_refl) as H.
  destruct (C_av_read_frame _ _ _) as [[r p] s1] eqn:Hcall.
  assert (Hr : r = -5) by (now inversion Hcall).
  destruct (AudioStream.read_frame _ _) as [[e a] s'].
  destruct H as (_ & _ & _ & _ & _ & H). cbn [fst].
  rewrite H; [reflexivity | lia | rewrite Hr; discriminate].
Defined.


Lemma framesEOF_is_a_latch_witness :
  log (snd (read_raw_n 3 (Script.audio_eof Script.fmt_48k_flt)
              (Script.sys_of Script.world_late_frame)))
  = repeat Call_avcodec_decode_audio4 3.
Proof.
  pose proof (@framesEOF_is_a_latch Script.libav 3
    (Script.audio_eof Script.fmt_48k_flt)
    (Script.sys_of Script.world_late_frame) eq_refl) as H.
  destruct (read_raw_n 3 _ _) as [[rs a] s'].
  destruct H as (_ & H & _). exact H.
Defined.

Lemma AudioStream_never_frees_a_packet_witness :
  filter is_av_free_packet
    (log (snd (read_raw_n 3 (Script.audio0 Script.fmt_48k_flt)
                 (Script.sys_of Script.world_buffering)))) = [].
Proof.
  pose proof (@AudioStream_never_frees_a_packet Script.libav 3
    (Script.audio0 Script.fmt_48k_flt)
    (Script.sys_of Script.world_buffering) eq_refl) as H.
  destruct (read_raw_n 3 _ _) as [[rs a] s'].
  destruct H as (_ & _ & H). exact H.
Defined.


Lemma demuxer_error_is_returned_at_once_witness :
  fst (fst (AudioStream.read_raw (Script.audio0 Script.fmt_48k_flt)
              (Script.sys_of Script.world_io_error)))
  = mkRaw 0 0 (Some (errors_New "libav error")).
Proof.
  assert (H0 : -5 <> 0) by lia.
  assert (H1 : -5 <> AVERROR_EOF) by discriminate.
  pose proof (@demuxer_error_is_returned_at_once Script.libav
    (Script.audio0 Script.fmt_48k_flt)
    (Script.sys_of Script.world_io_error)
    (snd (C_av_read_frame 1 (mkPacket 0 0)
            (Script.sys_of Script.world_io_error)))
    (-5) (mkPacket 0 0) eq_refl eq_refl eq_refl eq_refl H0 H1) as [H _].
  rewrite H. reflexivity.
Defined.

Lemma demuxer_eof_sets_flag_and_drains_witness :
  AudioStream.read_raw (Script.audio0 Script.fmt_48k_flt)
    (Script.sys_of Script.world_drained)
  = AudioStream.read_raw (Script.audio_eof Script.fmt_48k_flt)
      (snd (C_av_read_frame 1 (mkPacket 0 0)
              (Script.sys_of Script.world_drained))).
Proof.
  pose proof (@demuxer_eof_sets_flag_and_drains Script.libav
    (Script.audio0 Script.fmt_48k_flt)
    (Script.sys_of Script.world_drained)
    (snd (C_av_read_frame 1 (mkPacket 0 0)
            (Script.sys_of Script.world_drained)))
    (mkPacket 0 0) eq_refl eq_refl eq_refl eq_refl) as [H _].
  exact H.
Defined.

Lemma error_results_carry_no_data_witness :
  planes (fst (fst (Resampler.read_raw Script.resampler0
                      (Script.sys_of Script.world_io_error)))) = 0 /\
  frames (fst (fst (Resampler.read_raw Script.resampler0
                      (Script.sys_of Script.world_io_error)))) = 0.
Proof.
  pose proof (@error_results_carry_no_data Script.libav Script.fractions
    AudioStream.t _) as [_ H].
  specialize (H Script.resampler0 (Script.sys_of Script.world_io_error)).
  cbv zeta in H. destruct H as [H _]. apply H.
  assert (E : err (fst (fst (Resampler.read_raw Script.resampler0
                               (Script.sys_of Script.world_io_error))))
              = Some (errors_New "libav error")) by reflexivity.
  rewrite E. discriminate.
Defined.


Lemma source_error_is_passed_on_witness :
  fst (fst (Resampler.read_raw Script.resampler0
              (Script.sys_of Script.world_io_error)))
  = mkRaw 0 0 (Some (errors_New "libav error")).
Proof.
  pose proof (@source_error_is_passed_on Script.libav Script.fractions
    AudioStream.t _ Script.resampler0
    (Script.sys_of Script.world_io_error)
    (snd (AudioStream.read_raw (Script.audio0 Script.fmt_48k_flt)
            (Script.sys_of Script.world_io_error)))
    (mkRaw 0 0 (Some (errors_New "libav error")))
    (snd (fst (AudioStream.read_raw (Script.audio0 Script.fmt_48k_flt)
                 (Script.sys_of Script.world_io_error))))
    "libav error" eq_refl eq_refl eq_refl) as H.
  rewrite H. reflexivity.
Defined.


Lemma checkBuf_reallocates_only_to_grow_witness :
  Resampler.checkBuf Script.resampler_to_close_source 919
    (Script.sys_of Script.world_buffering)
  = (None, Script.resampler_to_close_source,
     Script.sys_of Script.world_buffering) /\
  log (snd (Resampler.checkBuf Script.resampler_to_close_source 1000
              (Script.sys_of Script.world_buffering)))
  = [Call_free 24576; Call_malloc (1000 * 2 * 2)].
Proof.
  pose proof (@checkBuf_reallocates_only_to_grow Script.libav
    Script.fractions AudioStream.t Script.resampler_to_close_source 919
    (Script.sys_of Script.world_buffering)) as [H _].
  pose proof (@checkBuf_reallocates_only_to_grow Script.libav
    Script.fractions AudioStream.t Script.resampler_to_close_source 1000
    (Script.sys_of Script.world_buffering)) as (_ & H2 & H3).
  cbv zeta in H, H2, H3. split.
  - apply H. cbn. lia.
  - assert (Hlt : Resampler.nf Script.resampler_to_close_source < 1000)
      by (cbn; lia).
    specialize (H2 Hlt).
    destruct (Resampler.checkBuf _ 1000 _) as [[e r] s']. cbn [snd].
    destruct H2 as [H2 _]. rewrite H2, H3; [reflexivity | | | ].
    + cbn. lia.
    + cbn. lia.
    + cbn. lia.
Defined.

Lemma script_memory_laws : @memory_laws Script.libav.
Proof.
  split.
  - intros w a v. cbn. unfold Script.load, Script.store. cbn.
    now rewrite Z.eqb_refl.
  - intros w a b v Hne. cbn. unfold Script.load, Script.store. cbn.
    apply Z.eqb_neq in Hne. now rewrite Hne.
Defined.

Lemma checkBuf_lays_out_planes_witness :
  @load_ptr Script.libav
    (world (snd (Resampler.checkBuf Script.resampler0 10
                   (Script.sys_of Script.world_one_block))))
    8192
  = 16384.
Proof.
  assert (Hlt : Resampler.nf Script.resampler0 < 10) by (cbn; lia).
  assert (Hd : 0 <= Resampler.data Script.resampler0) by (cbn; lia).
  assert (Hend : Resampler.data Script.resampler0
                 + Resampler.nplanes Script.resampler0 * sizeOfPtr
                 <= 2 ^ 64) by (cbn; lia).
  pose proof (@checkBuf_lays_out_planes Script.libav Script.fractions
    AudioStream.t Script.resampler0 10
    (Script.sys_of Script.world_one_block)
    script_memory_laws Hlt Hd Hend) as H.
  cbv zeta in H.
  assert (E : fst (fst (Resampler.checkBuf Script.resampler0 10
                          (Script.sys_of Script.world_one_block))) = None)
    by reflexivity.
  assert (B : Resampler.buf
                (snd (fst (Resampler.checkBuf Script.resampler0 10
                             (Script.sys_of Script.world_one_block))))
              = 16384) by reflexivity.
  destruct (Resampler.checkBuf _ _ _) as [[e r] s']. cbn [fst snd] in *.
  destruct (H E) as [_ H0].
  assert (Hp : 0 < Resampler.nplanes Script.resampler0) by (cbn; lia).
  rewrite <- B. exact (H0 Hp).
Defined.

Lemma Resample_returns_stream_in_requested_format_witness :
  exists x : @Stream Script.fractions AudioStream.t,
    fst (fst (@Resample Script.libav Script.fractions AudioStream.t _
                (Script.audio0 Script.fmt_48k_flt) Script.fmt_44k_s16
                (Script.sys_of Script.world_buffering))) = Some x /\
    @Stream_Format Script.libav Script.fractions AudioStream.t _ x
    = Script.fmt_44k_s16.
Proof.
  pose proof (@Resample_returns_stream_in_requested_format Script.libav
    Script.fractions AudioStream.t _ (Script.audio0 Script.fmt_48k_flt)
    Script.fmt_44k_s16 (Script.sys_of Script.world_buffering)) as H.
  assert (E : fst (fst (@Resample Script.libav Script.fractions
                          AudioStream.t _
                          (Script.audio0 Script.fmt_48k_flt)
                          Script.fmt_44k_s16
                          (Script.sys_of Script.world_buffering)))
              = Some (Resampled Script.resampler0)) by reflexivity.
  destruct (Resample _ _ _) as [[st e] s']. cbn [fst] in *.
  destruct H as [_ H]. exists (Resampled Script.resampler0).
  split; [exact E|]. apply (H _ E).
Defined.

Lemma NewPackedS16Stream_accepts_exactly_PackedS16s_witness :
  @PackedS16Stream.NewPackedS16Stream Script.libav AudioStream.t _
    (Script.audio0 Script.fmt_44k_s16)
  = (Some Script.reader_s16, None) /\
  @PackedS16Stream.NewPackedS16Stream Script.libav AudioStream.t _
    (Script.audio0 Script.fmt_48k_flt)
  = (None, Some (errors_New "sample format mismatch")) /\
  @PackedS16Stream.NewPackedS16Stream Script.libav
    (@Stream Script.fractions AudioStream.t)
    (@Stream_sample_stream Script.libav Script.fractions AudioStream.t _)
    (Resampled Script.resampler0)
  = (Some (PackedS16Stream.mk (Resampled Script.resampler0)), None).
Proof.
  split; [|split].
  - apply (@NewPackedS16Stream_accepts_exactly_PackedS16s Script.libav
             Script.fractions AudioStream.t _
             (Script.audio0 Script.fmt_44k_s16)).
    reflexivity.
  - apply (@NewPackedS16Stream_accepts_exactly_PackedS16s Script.libav
             Script.fractions AudioStream.t _
             (Script.audio0 Script.fmt_48k_flt)).
    discriminate.
  - pose proof (@NewPackedS16Stream_accepts_exactly_PackedS16s Script.libav
      Script.fractions AudioStream.t _ (Script.audio0 Script.fmt_48k_flt))
      as (_ & _ & H).
    specialize (H Script.fmt_44k_s16
      (Script.sys_of Script.world_buffering)
      (snd (@Resample Script.libav Script.fractions AudioStream.t _
              (Script.audio0 Script.fmt_48k_flt) Script.fmt_44k_s16
              (Script.sys_of Script.world_buffering)))
      (Resampled Script.resampler0) eq_refl).
    apply H. reflexivity.
Defined.

Lemma read_raw_keeps_format_witness :
  @Format Script.libav AudioStream.t _
         (PackedS16Stream.source
            (snd (fst (PackedS16Stream.Read Script.reader_s16
                         (Script.sys_of Script.world_one_frame)))))
  = Script.fmt_44k_s16.
Proof.
  pose proof (@read_raw_keeps_format Script.libav Script.fractions
    AudioStream.t _) as (HA & _ & _ & H).
  specialize (H HA Script.reader_s16 (Script.sys_of Script.world_one_frame)).
  destruct (PackedS16Stream.Read _ _) as [[[sl e] st] s']. exact H.
Defined.

Lemma stream_checks_index_witness :
  @FormatContext.stream Script.libav Script.lifecycle Script.format_context 0
    (Script.sys_of Script.world_container) = Done 45056 /\
  @FormatContext.stream Script.libav Script.lifecycle Script.format_context 1
    (Script.sys_of Script.world_container) = Panic.
Proof.
  pose proof (@stream_checks_index Script.libav Script.lifecycle
    Script.format_context 0 (Script.sys_of Script.world_container))
    as [H0 _].
  pose proof (@stream_checks_index Script.libav Script.lifecycle
    Script.format_context 1 (Script.sys_of Script.world_container))
    as [_ H1].
  cbv zeta in H0, H1. split.
  - rewrite H0; [reflexivity | cbn; lia | lia].
  - apply H1. right. left. cbn. lia.
Defined.

Lemma OpenAudioStream_returns_fresh_stream_witness :
  exists (audio : AudioStream.t) (s' : @Sys Script.libav),
    @FormatContext.OpenAudioStream Script.libav Script.lifecycle
      Script.format_context (Script.sys_of Script.world_container)
    = Done (Some audio, None, s') /\
    AudioStream.pkt audio = mkPacket 0 0 /\
    AudioStream.fmt audio = Script.fmt_48k_flt.
Proof.
  pose proof (@OpenAudioStream_returns_fresh_stream Script.libav
    Script.lifecycle Script.format_context
    (Script.sys_of Script.world_container)
    (Some (AudioStream.mk 1 0 45056 Script.fmt_48k_flt 0 0 (mkPacket 0 0)
             (mkFrame 0 0) false))
    None
    (Script.sys_of (Script.mk [(0, 4)] [(4, 1, 20480, 1)] [] []
                      [(40960, 45056)]))
    eq_refl) as (_ & H).
  destruct (H _ eq_refl) as (Hp & _).
  eexists _, _. split; [reflexivity|]. split; [exact Hp | reflexivity].
Defined.

Lemma Resampler_Close_frees_once_witness :
  log (snd (@Resampler_Close Script.libav Script.lifecycle Script.fractions
              nat Script.close_counter Script.resampler_to_close
              (Script.sys_of Script.world_drained)))
  = [Call_free 8192; Call_free 24576] /\
  (let '(closed, s1) :=
     @Resampler_Close Script.libav Script.lifecycle Script.fractions
       nat Script.close_counter Script.resampler_to_close
       (Script.sys_of Script.world_drained) in
   log (snd (@Resampler_Close Script.libav Script.lifecycle
               Script.fractions nat Script.close_counter closed s1))
   = log s1 /\
   Resampler.source
     (fst (@Resampler_Close Script.libav Script.lifecycle
             Script.fractions nat Script.close_counter closed s1)) = 2%nat).
Proof.
  assert (Hctx : Resampler.ctx Script.resampler_to_close <> 0)
    by (cbn; lia).
  pose proof (@Resampler_Close_frees_once Script.libav Script.lifecycle
    Script.fractions nat Script.close_counter Script.resampler_to_close
    (Script.sys_of Script.world_drained) Hctx) as H.
  split; [reflexivity|].
  assert (E : Resampler.source
                (fst (@Resampler_Close Script.libav Script.lifecycle
                        Script.fractions nat Script.close_counter
                        Script.resampler_to_close
                        (Script.sys_of Script.world_drained))) = 1%nat)
    by reflexivity.
  destruct (Resampler_Close _ _) as [closed s1]. cbn [fst] in E.
  destruct H as (_ & _ & H). rewrite H. cbn. rewrite E. auto.
Defined.

Lemma Draft_empty_pull_reaches_converter_witness :
  exists (resamp' : Draft.t AudioStream.t) (s' : Sys),
    @Draft.read_raw Script.libav Script.goruntime Script.fractions
      AudioStream.t _ Script.draft0
      (Script.sys_of Script.world_no_frame_then_nothing)
    = Done (mkRaw 0 0 (Some io_EOF), resamp', s') /\
    Draft.sourceEOF resamp' = false.
Proof.
  assert (Hcap : int32 (@f64_ceil_mul Script.fractions 0
                          (Draft.sratio Script.draft0))
                 <= Draft.nf Script.draft0) by (cbn; lia).
  pose proof (@Draft_empty_pull_reaches_converter Script.libav
    Script.goruntime Script.fractions AudioStream.t _ Script.draft0
    (Script.sys_of Script.world_no_frame_then_nothing)
    (snd (AudioStream.read_raw (Script.audio0 Script.fmt_48k_flt)
            (Script.sys_of Script.world_no_frame_then_nothing)))
    (mkRaw 0 0 None)
    (snd (fst (AudioStream.read_raw (Script.audio0 Script.fmt_48k_flt)
                 (Script.sys_of Script.world_no_frame_then_nothing))))
    eq_refl eq_refl eq_refl eq_refl Hcap) as (H & Hf & _).
  cbv zeta in H. eexists _, _. split; [exact H | exact Hf].
Defined.

Lemma Draft_checkBuf_allocates_every_plane_witness :
  exists (resamp' : Draft.t AudioStream.t) (s' : Sys),
    @Draft.checkBuf Script.libav Script.goruntime Script.fractions
      AudioStream.t _ Script.draft0 10
      (Script.sys_of Script.world_buffering)
    = Done (None, resamp', s') /\
    Draft.data resamp' = [8192].
Proof.
  assert (Hlt : Draft.nf Script.draft0 < 10) by (cbn; lia).
  pose proof (@Draft_checkBuf_allocates_every_plane Script.libav
    Script.goruntime Script.fractions AudioStream.t _ Script.draft0 10
    (Script.sys_of Script.world_buffering) Hlt) as H.
  assert (E : @Draft.checkBuf Script.libav Script.goruntime Script.fractions
                AudioStream.t _ Script.draft0 10
                (Script.sys_of Script.world_buffering)
              = Done (None,
                      Draft.with_nf (Draft.with_data Script.draft0 12288
                                       [8192]) 10,
                      Script.sys_of_log
                        (Script.mk [(0, 4); (0, 4)]
                           [(4, 1, 20480, 1); (4, 1, 20480, 1000)]
                           [0; 919] [16384; 24576] [])
                        [Call_malloc 20]))
    by reflexivity.
  rewrite E in H. destruct H as [Hlen _].
  eexists _, _. split; [exact E | reflexivity].
Defined.
